(** * Trivia API: the request handlers of [backend/flaskr/__init__.py]

    A shallow embedding of the Flask handlers of the trivia back end and the
    properties of its HTTP contract.

    Conventions of the embedding:
    - Python values that travel through request bodies and [jsonify] are
      terms of [value]; JSON numbers are integers (no floats).
    - A Python [str] is the Rocq [string] of its UTF-8 bytes: the test
      [a in b] on two [str] is then the search of a run of bytes.
      [str.lower], whose Unicode case tables are not reproduced, is a
      parameter of the application; [int] is modelled on ASCII text, with
      no bound on the number of digits.
    - A Python exception is an [outcome]: [Abort c] is the [HTTPException]
      that [abort(c)] raises, [Raise e] any other exception.
    - The handlers read the store; the two mutating handlers return the new
      store next to their outcome. *)

From Stdlib Require Import ZArith List String Ascii Bool Lia Sorted Permutation.
Import ListNotations.
Open Scope string_scope.
Open Scope list_scope.
Open Scope Z_scope.

Set Implicit Arguments.
Set Warnings "-register-all".

(** ** Python values *)

Inductive value : Type :=
| VNone
| VBool (b : bool)
| VInt (n : Z)
| VStr (s : string)
| VList (l : list value)
| VDict (kv : list (value * value)).

(** ** Exceptions and outcomes *)

Inductive exn : Type :=
| AttributeError   (* attribute looked up on a value that lacks it *)
| StoreError.      (* raised by the database session *)

Inductive outcome (A : Type) : Type :=
| Ok (a : A)
| Abort (code : Z)
| Raise (e : exn).

Arguments Ok {A} a.
Arguments Abort {A} code.
Arguments Raise {A} e.

Definition bind {A B} (m : outcome A) (k : A -> outcome B) : outcome B :=
  match m with
  | Ok a => k a
  | Abort c => Abort c
  | Raise e => Raise e
  end.

Notation "x <- m ;; k" := (bind m (fun x => k))
  (at level 61, m at next level, right associativity).

(** [try: body except: abort(code)]: a bare [except] catches every
    exception, the [HTTPException] of an inner [abort] included. *)
Definition try_except_abort {A} (body : outcome A) (code : Z) : outcome A :=
  match body with
  | Ok a => Ok a
  | _ => Abort code
  end.

(** ** Strings *)

(** What [str.lower()] does on ASCII text, where only the letters [A-Z]
    change: the instance that the examples run. *)
Definition lower_ascii (c : ascii) : ascii :=
  let n := nat_of_ascii c in
  if (Nat.leb 65 n && Nat.leb n 90)%bool then ascii_of_nat (n + 32) else c.

Fixpoint ascii_lower (s : string) : string :=
  match s with
  | EmptyString => EmptyString
  | String c t => String (lower_ascii c) (ascii_lower t)
  end.

Fixpoint starts_with (p s : string) : bool :=
  match p, s with
  | EmptyString, _ => true
  | String a p', String b s' => (Ascii.eqb a b && starts_with p' s')%bool
  | String _ _, EmptyString => false
  end.

(** [needle in hay] on two [str] *)
Fixpoint str_in (needle hay : string) : bool :=
  (starts_with needle hay ||
   match hay with
   | EmptyString => false
   | String _ t => str_in needle t
   end)%bool.

(** ** [int(s)] on ASCII text

    Leading and trailing white space is skipped, one sign is allowed, and
    single underscores may separate digits.  [None] is [ValueError].  The
    digits and the white space that Unicode has beyond ASCII, which [int]
    reads as well, are not modelled: [py_int] is [int] on ASCII text. *)

(** The white space of ASCII text: tab, line feed, vertical tab, form feed,
    carriage return and space. *)
Definition is_space (c : ascii) : bool :=
  let n := nat_of_ascii c in
  ((Nat.leb 9 n && Nat.leb n 13) || Nat.eqb n 32)%bool.

Definition digit_of (c : ascii) : option Z :=
  let n := nat_of_ascii c in
  if (Nat.leb 48 n && Nat.leb n 57)%bool then Some (Z.of_nat (n - 48)) else None.

Fixpoint lstrip (s : string) : string :=
  match s with
  | String c t => if is_space c then lstrip t else s
  | EmptyString => EmptyString
  end.

Fixpoint all_space (s : string) : bool :=
  match s with
  | EmptyString => true
  | String c t => (is_space c && all_space t)%bool
  end.

(** [digits acc after_digit s]: reads the digits of [s] into [acc];
    [after_digit] tells whether the previous character was a digit, the only
    place where an underscore or the end of the number may come. *)
Fixpoint digits (acc : Z) (after_digit : bool) (s : string) : option Z :=
  match s with
  | EmptyString => if after_digit then Some acc else None
  | String c t =>
      match digit_of c with
      | Some d => digits (10 * acc + d) true t
      | None =>
          if Ascii.eqb c "_" then
            if after_digit then digits acc false t else None
          else if (after_digit && all_space s)%bool then Some acc else None
      end
  end.

Definition py_int (s : string) : option Z :=
  match lstrip s with
  | String "-" t => option_map Z.opp (digits 0 false t)
  | String "+" t => digits 0 false t
  | t => digits 0 false t
  end.

(** ** Slicing: [l[start:stop]] *)

(** A slice bound, adjusted to a list of [n] elements: a negative bound
    counts from the end, and both are clamped to [0..n]. *)
Definition slice_index (n i : Z) : Z :=
  if i <? 0 then Z.max (i + n) 0 else Z.min i n.

Definition py_slice {A} (l : list A) (start stop : Z) : list A :=
  let n := Z.of_nat (List.length l) in
  let lo := slice_index n start in
  let hi := slice_index n stop in
  firstn (Z.to_nat (hi - lo)) (skipn (Z.to_nat lo) l).

(** ** The store

    [models.py], which declares the two tables and their operations, is not
    among the sources; what follows is its model. *)

(** Modelled from the spec: the [Question] rows of [models.py], with the
    five typed columns of the data model. *)
Module Question.
Record t : Type := make {
  id : Z;
  question : string;
  answer : string;
  category : Z;
  difficulty : Z
}.

(** Modelled from the spec: [Question.format] of [models.py]; each
    serialized question includes id, question, answer, category and
    difficulty. *)
Definition format (q : t) : value :=
  VDict [ (VStr "id", VInt (id q));
          (VStr "question", VStr (question q));
          (VStr "answer", VStr (answer q));
          (VStr "category", VInt (category q));
          (VStr "difficulty", VInt (difficulty q)) ].
End Question.

(** Modelled from the spec: the [Category] rows of [models.py]. *)
Module Category.
Record t : Type := make {
  id : Z;
  type : string
}.
End Category.

(** The two tables, each in the order in which the store yields its rows
    when a query gives no ordering. *)
Record Store : Type := {
  questions : list Question.t;
  categories : list Category.t
}.

(** *** Queries *)

(** [Question.query.all()] *)
Definition Question_query_all (st : Store) : list Question.t := questions st.

(** [Category.query.all()] *)
Definition Category_query_all (st : Store) : list Category.t := categories st.

(** [Question.query.get(question_id)]: the row with that primary key. *)
Definition Question_query_get (st : Store) (question_id : Z) : option Question.t :=
  find (fun q => Question.id q =? question_id) (questions st).

(** [Category.query.get(category_id)] *)
Definition Category_query_get (st : Store) (category_id : Z) : option Category.t :=
  find (fun c => Category.id c =? category_id) (categories st).

(** [Question.query.filter_by(category=category_id).all()] *)
Definition Question_filter_by_category (st : Store) (category_id : Z) : list Question.t :=
  filter (fun q => Question.category q =? category_id) (questions st).

(** [order_by('id')]: ascending ids, by insertion into a sorted list. *)
Fixpoint insert_by_id (q : Question.t) (l : list Question.t) : list Question.t :=
  match l with
  | [] => [q]
  | h :: t =>
      if Question.id q <? Question.id h then q :: l else h :: insert_by_id q t
  end.

Fixpoint order_by_id (l : list Question.t) : list Question.t :=
  match l with
  | [] => []
  | h :: t => insert_by_id h (order_by_id t)
  end.

(** [Question.query.order_by('id').all()] *)
Definition Question_query_order_by_id (st : Store) : list Question.t :=
  order_by_id (questions st).

(** Modelled from the spec: [Question.delete] of [models.py]: the row leaves
    the table when the session commits; [commit_ok = false] is a commit that
    raises and leaves the table as it was. *)
Definition Question_delete (commit_ok : bool) (st : Store) (q : Question.t)
  : outcome Store :=
  if commit_ok then
    Ok {| questions :=
            filter (fun q' => negb (Question.id q' =? Question.id q)) (questions st);
          categories := categories st |}
  else Raise StoreError.

(** *** Bind values of a filter

    The columns compared in [/quizzes] are integer columns: a bind value that
    is not an integer is refused by the store. *)
Definition sql_int (v : value) : outcome Z :=
  match v with
  | VInt n => Ok n
  | _ => Raise StoreError
  end.

Fixpoint sql_ints (l : list value) : outcome (list Z) :=
  match l with
  | [] => Ok []
  | v :: t => n <- sql_int v ;; ns <- sql_ints t ;; Ok (n :: ns)
  end.

(** The values of [Question.id.in_(...)]: a Python list. *)
Definition sql_in_list (v : value) : outcome (list Z) :=
  match v with
  | VList l => sql_ints l
  | _ => Raise StoreError
  end.

Definition mem (n : Z) (l : list Z) : bool := existsb (Z.eqb n) l.

(** ** Requests *)

(** The body of a request as [request.get_json()] sees it. *)
Inductive payload : Type :=
| NotJson             (* the content type is not JSON *)
| BadJson             (* JSON content type, body missing or not parsable *)
| Json (v : value).

Record request : Type := {
  args : list (string * string);   (* the query string *)
  data : payload
}.

(** [request.get_json()]: [None] for another content type, a bad-request
    [HTTPException] when loading fails. *)
Definition get_json (r : request) : outcome value :=
  match data r with
  | Json v => Ok v
  | NotJson => Ok VNone
  | BadJson => Abort 400
  end.

Fixpoint args_lookup (key : string) (a : list (string * string)) : option string :=
  match a with
  | [] => None
  | (k, v) :: t => if String.eqb k key then Some v else args_lookup key t
  end.

(** [request.args.get(key, default, type=int)]: the default when the key is
    absent and when [int] raises [ValueError]. *)
Definition args_get_int (r : request) (key : string) (default : Z) : Z :=
  match args_lookup key (args r) with
  | None => default
  | Some s =>
      match py_int s with
      | Some n => n
      | None => default
      end
  end.

Fixpoint dict_lookup (key : string) (kv : list (value * value)) : option value :=
  match kv with
  | [] => None
  | (VStr k, v) :: t => if String.eqb k key then Some v else dict_lookup key t
  | _ :: t => dict_lookup key t
  end.

(** [d.get(key)]: [None] for a missing key; [AttributeError] when [d] is not
    a dict. *)
Definition py_get (d : value) (key : string) : outcome value :=
  match d with
  | VDict kv =>
      match dict_lookup key kv with
      | Some v => Ok v
      | None => Ok VNone
      end
  | _ => Raise AttributeError
  end.

(** [v != 0] *)
Definition py_ne_zero (v : value) : bool :=
  match v with
  | VInt n => negb (n =? 0)
  | VBool b => b
  | _ => true
  end.

(** [d[k] = v] on a dict whose keys are integers. *)
Fixpoint dict_set (kv : list (value * value)) (k : Z) (v : value)
  : list (value * value) :=
  match kv with
  | [] => [(VInt k, v)]
  | (VInt k', v') :: t =>
      if k' =? k then (VInt k', v) :: t else (VInt k', v') :: dict_set t k v
  | e :: t => e :: dict_set t k v
  end.

(** Modelled from the spec: the store's filter-by-field and
    filter-by-exclusion-set operations behind [Question.query.filter(...)]:
    the rows, in the store's order, whose id is none of [previous] and, when
    a category is given, whose category is that one. *)
Definition Question_query_filter (st : Store) (cat : option value) (previous : value)
  : outcome (list Question.t) :=
  ids <- sql_in_list previous ;;
  match cat with
  | Some c =>
      n <- sql_int c ;;
      Ok (filter (fun q => (Question.category q =? n) && negb (mem (Question.id q) ids))%bool
                 (questions st))
  | None =>
      Ok (filter (fun q => negb (mem (Question.id q) ids)) (questions st))
  end.

(** [query.first()] *)
Definition first {A} (rows : list A) : option A := hd_error rows.

(** ** Responses and the error handlers *)

Record response : Type := {
  status : Z;
  json : option value     (* [None]: the body is not a JSON document *)
}.

Definition error_body (code : Z) (message : string) : value :=
  VDict [ (VStr "success", VBool false);
          (VStr "error", VInt code);
          (VStr "message", VStr message) ].

(** [@app.errorhandler(404)] *)
Definition not_found : response :=
  {| status := 404; json := Some (error_body 404 "resource not found") |}.

(** [@app.errorhandler(422)] *)
Definition unprocessable : response :=
  {| status := 422; json := Some (error_body 422 "unprocessable") |}.

(** [@app.errorhandler(400)] *)
Definition bad_request : response :=
  {| status := 400; json := Some (error_body 400 "bad request") |}.

(** What the application sends for the outcome of a view function: the
    returned document, the registered handler of an aborted request, and an
    internal server error for an exception nobody catches. *)
Definition respond (o : outcome value) : response :=
  match o with
  | Ok v => {| status := 200; json := Some v |}
  | Abort c =>
      if c =? 404 then not_found
      else if c =? 422 then unprocessable
      else if c =? 400 then bad_request
      else {| status := c; json := None |}
  | Raise _ => {| status := 500; json := None |}
  end.

(** ** The view functions *)

Definition QUESTIONS_PER_PAGE : Z := 10.

Definition success_only : value := VDict [ (VStr "success", VBool true) ].

Definition len {A} (l : list A) : Z := Z.of_nat (List.length l).

Section App.

(** [Question.insert] of [models.py] (not among the sources), on the four
    values given to the constructor: the new store, or what it raises. *)
Variable Question_insert : Store -> value -> value -> value -> value -> outcome Store.

(** [str.lower] of Python, on the UTF-8 bytes of a [str]. *)
Variable str_lower : string -> string.

(** [s.lower()] on a value: only [str] has the method. *)
Definition py_lower (v : value) : outcome string :=
  match v with
  | VStr s => Ok (str_lower s)
  | _ => Raise AttributeError
  end.

Definition paginate_questions (r : request) (selection : list Question.t) : list value :=
  let questions := map Question.format selection in
  let page := args_get_int r "page" 1 in
  let start := (page - 1) * QUESTIONS_PER_PAGE in
  let end_ := start + QUESTIONS_PER_PAGE in
  let current_questions := py_slice questions start end_ in
  current_questions.

(** The loop [categories[category.id] = category.type]. *)
Definition categories_dict (st : Store) : value :=
  VDict (fold_left (fun d c => dict_set d (Category.id c) (VStr (Category.type c)))
                   (Category_query_all st) []).

(** [GET /categories] *)
Definition retrieve_categories (st : Store) : outcome value :=
  let categories := categories_dict st in
  Ok (VDict [ (VStr "success", VBool true);
              (VStr "categories", categories) ]).

(** [GET /questions] *)
Definition retrieve_question (st : Store) (r : request) : outcome value :=
  let categories := categories_dict st in
  let questions := Question_query_order_by_id st in
  let current_questions := paginate_questions r questions in
  if len current_questions =? 0 then Abort 404
  else
    Ok (VDict [ (VStr "success", VBool true);
                (VStr "total_questions", VInt (len questions));
                (VStr "questions", VList current_questions);
                (VStr "current_category", VNone);
                (VStr "categories", categories) ]).

(** [DELETE /questions/<int:question_id>] *)
Definition delete_question (commit_ok : bool) (st : Store) (question_id : Z)
  : outcome (value * Store) :=
  let question := Question_query_get st question_id in
  try_except_abort
    (st' <- match question with
            | Some q => Question_delete commit_ok st q
            | None => Raise AttributeError
            end ;;
     Ok (success_only, st'))
    422.

(** [POST /questions] *)
Definition create_question (st : Store) (r : request) : outcome (value * Store) :=
  try_except_abort
    (body <- get_json r ;;
     q <- py_get body "question" ;;
     a <- py_get body "answer" ;;
     c <- py_get body "category" ;;
     d <- py_get body "difficulty" ;;
     st' <- Question_insert st q a c d ;;
     Ok (success_only, st'))
    400.

(** The comprehension
    [[question.format() for question in questions
      if search_term.lower() in question.question.lower()]]:
    the condition is evaluated once per row. *)
Fixpoint matched (search_term : value) (questions : list Question.t)
  : outcome (list value) :=
  match questions with
  | [] => Ok []
  | question :: rest =>
      needle <- py_lower search_term ;;
      tail <- matched search_term rest ;;
      Ok (if str_in needle (str_lower (Question.question question))
          then Question.format question :: tail
          else tail)
  end.

(** [POST /search] *)
Definition search_questions (st : Store) (r : request) : outcome value :=
  body <- get_json r ;;
  search_term <- py_get body "searchTerm" ;;
  let questions := Question_query_all st in
  matched_questions <- matched search_term questions ;;
  Ok (VDict [ (VStr "success", VBool true);
              (VStr "questions", VList matched_questions);
              (VStr "total_questions", VInt (len matched_questions));
              (VStr "current_category", VNone) ]).

(** [GET /categories/<int:category_id>/questions] *)
Definition get_category_questions (st : Store) (r : request) (category_id : Z)
  : outcome value :=
  match Category_query_get st category_id with
  | None => Abort 404
  | Some _ =>
      let questions := Question_filter_by_category st category_id in
      let current_questions := paginate_questions r questions in
      Ok (VDict [ (VStr "success", VBool true);
                  (VStr "questions", VList current_questions);
                  (VStr "total_questions", VInt (len current_questions));
                  (VStr "current_category", VInt category_id) ])
  end.

(** [POST /quizzes] *)
Definition get_quiz_questions (st : Store) (r : request) : outcome value :=
  data <- get_json r ;;
  previous_questions <- py_get data "previous_questions" ;;
  quiz_category <- py_get data "quiz_category" ;;
  category_id <- py_get quiz_category "id" ;;
  questions <-
    (if py_ne_zero category_id
     then Question_query_filter st (Some category_id) previous_questions
     else Question_query_filter st None previous_questions) ;;
  match first questions with
  | None => Ok success_only
  | Some question =>
      Ok (VDict [ (VStr "success", VBool true);
                  (VStr "question", Question.format question) ])
  end.

(** *** The routes: a view function and the response sent for it *)

Definition value_of {A} (o : outcome (value * A)) : outcome value :=
  x <- o ;; Ok (fst x).

(** The store after a mutating request: the one the view returned, the
    old one when it failed. *)
Definition store_of (st : Store) (o : outcome (value * Store)) : Store :=
  match o with
  | Ok (_, st') => st'
  | _ => st
  end.

Definition GET_categories (st : Store) : response :=
  respond (retrieve_categories st).

Definition GET_questions (st : Store) (r : request) : response :=
  respond (retrieve_question st r).

Definition DELETE_question (commit_ok : bool) (st : Store) (question_id : Z)
  : response * Store :=
  let o := delete_question commit_ok st question_id in
  (respond (value_of o), store_of st o).

Definition POST_questions (st : Store) (r : request) : response * Store :=
  let o := create_question st r in
  (respond (value_of o), store_of st o).

Definition POST_search (st : Store) (r : request) : response :=
  respond (search_questions st r).

Definition GET_category_questions (st : Store) (r : request) (category_id : Z)
  : response :=
  respond (get_category_questions st r category_id).

Definition POST_quizzes (st : Store) (r : request) : response :=
  respond (get_quiz_questions st r).

End App.

(** ** Sample data *)

Definition q_ (i c : Z) (text : string) : Question.t :=
  Question.make i text "answer" c 1.

(** [n] questions of category [c], with the ids [from+1 .. from+n]. *)
Fixpoint sample_questions (n : nat) (from c : Z) : list Question.t :=
  match n with
  | O => []
  | S k => sample_questions k from c ++ [q_ (from + Z.of_nat n) c "What is the title?"]
  end.

Definition science : Category.t := Category.make 1 "Science".
Definition art : Category.t := Category.make 2 "Art".

Definition store_of_size (n : nat) : Store :=
  {| questions := sample_questions n 0 1; categories := [science; art] |}.

Definition empty_store : Store :=
  {| questions := []; categories := [science; art] |}.

Definition get_with_page (p : string) : request :=
  {| args := [("page", p)]; data := NotJson |}.

Definition get_plain : request := {| args := []; data := NotJson |}.

Definition post_json (v : value) : request := {| args := []; data := Json v |}.

Definition quiz_body (previous : list Z) (category_id : Z) : value :=
  VDict [ (VStr "previous_questions", VList (map VInt previous));
          (VStr "quiz_category",
           VDict [ (VStr "type", VStr "click"); (VStr "id", VInt category_id) ]) ].

(** Two questions of category 1 (ids 1, 2), then two of category 2 (ids 3,
    4), with texts that differ in their letter case. *)
Definition mixed_store : Store :=
  {| questions := [ q_ 1 1 "What is the TITLE of the film?";
                    q_ 2 1 "Who painted it?";
                    q_ 3 2 "Which title did she win?";
                    q_ 4 2 "Where is the lake?" ];
     categories := [science; art] |}.

(** An insert that takes rows of the column types and numbers them after
    the last one. *)
Definition insert_typed (st : Store) (q a c d : value) : outcome Store :=
  match q, a, c, d with
  | VStr q', VStr a', VInt c', VInt d' =>
      Ok {| questions :=
              questions st ++
              [Question.make (1 + fold_right Z.max 0 (map Question.id (questions st)))
                             q' a' c' d'];
            categories := categories st |}
  | _, _, _, _ => Raise StoreError
  end.

(** ** Vocabulary of the properties *)

(** Ascending ids. *)
Definition id_le (a b : Question.t) : Prop := Question.id a <= Question.id b.

(** The page a request asks for, as [paginate_questions] reads it. *)
Definition page_of (r : request) : Z := args_get_int r "page" 1.

(** The same request without any [page] in its query string. *)
Definition without_page (r : request) : request :=
  {| args := filter (fun kv => negb (String.eqb (fst kv) "page")) (args r);
     data := data r |}.

(** The successful response that carries the document [v]. *)
Definition ok (v : value) : response := {| status := 200; json := Some v |}.

(** The ten-element window of page [page >= 1]. *)
Definition window {A} (page : Z) (l : list A) : list A :=
  firstn 10 (skipn (Z.to_nat (10 * (page - 1))) l).

(** The slice from [start = (page-1)*10] to [end = start+10]. *)
Definition slice_of_page {A} (page : Z) (l : list A) : list A :=
  py_slice l ((page - 1) * 10) ((page - 1) * 10 + 10).

(** The window of a page [page < 0], counted from the end of the list: the
    last [-10*page] elements are skipped, the ten before them kept. *)
Definition window_from_end {A} (page : Z) (l : list A) : list A :=
  rev (firstn 10 (skipn (Z.to_nat (- 10 * page)) (rev l))).

(** The document of a page of all questions. *)
Definition questions_page (total : Z) (shown : list value) (categories : value)
  : value :=
  VDict [ (VStr "success", VBool true);
          (VStr "total_questions", VInt total);
          (VStr "questions", VList shown);
          (VStr "current_category", VNone);
          (VStr "categories", categories) ].

(** The document of a search. *)
Definition search_page (total : Z) (shown : list value) : value :=
  VDict [ (VStr "success", VBool true);
          (VStr "questions", VList shown);
          (VStr "total_questions", VInt total);
          (VStr "current_category", VNone) ].

(** The response to an exception that no handler catches. *)
Definition server_error : response := {| status := 500; json := None |}.

(** [q] is the first element of [l] that satisfies [p]. *)
Definition first_match {A} (p : A -> bool) (l : list A) (q : A) : Prop :=
  exists before after,
    l = before ++ q :: after /\ p q = true /\
    forall x, In x before -> p x = false.

(** A question that [/quizzes] may still draw: not asked before and, unless
    the quiz category is 0, of the quiz category. *)
Definition eligible (previous : list Z) (category_id : Z) (q : Question.t) : bool :=
  (negb (mem (Question.id q) previous) &&
   ((category_id =? 0) || (Question.category q =? category_id)))%bool.

(** [text] contains [term], letter case apart: the lowered term is a run of
    characters of the lowered text, for [lower] the [str.lower] in use. *)
Definition contains_nocase (lower : string -> string) (text term : string) : Prop :=
  exists l r, lower text = (l ++ lower term ++ r)%string.

(** A character that no integer literal holds, in ASCII or beyond: an
    ASCII character that is no digit, sign or underscore and no white space
    of any kind (the separators 28 to 31 count as white space here). *)
Definition foreign_to_int (c : ascii) : bool :=
  let n := nat_of_ascii c in
  (Nat.ltb n 128 &&
   negb (Nat.leb 48 n && Nat.leb n 57) &&
   negb (Nat.eqb n 43 || Nat.eqb n 45 || Nat.eqb n 95) &&
   negb ((Nat.leb 9 n && Nat.leb n 13) || (Nat.leb 28 n && Nat.leb n 32)))%bool.

(** [c] occurs in [s]. *)
Fixpoint occurs (c : ascii) (s : string) : Prop :=
  match s with
  | EmptyString => False
  | String x t => x = c \/ occurs c t
  end.

(** [d.get(key)] on the entries of a dict. *)
Definition entry (kv : list (value * value)) (key : string) : value :=
  match dict_lookup key kv with
  | Some v => v
  | None => VNone
  end.

(** The document of a category listing. *)
Definition category_page (category_id : Z) (shown : list value) : value :=
  VDict [ (VStr "success", VBool true);
          (VStr "questions", VList shown);
          (VStr "total_questions", VInt (len shown));
          (VStr "current_category", VInt category_id) ].

(** [d[key]] for an integer key: [None] stands for [KeyError]. *)
Fixpoint dict_lookup_int (key : Z) (kv : list (value * value)) : option value :=
  match kv with
  | [] => None
  | (VInt k, v) :: t => if k =? key then Some v else dict_lookup_int key t
  | _ :: t => dict_lookup_int key t
  end.

(** The integer keys of a dict, in their order. *)
Fixpoint int_keys (kv : list (value * value)) : list Z :=
  match kv with
  | [] => []
  | (VInt k, _) :: t => k :: int_keys t
  | _ :: t => int_keys t
  end.

(** The pages [1 .. k], one after the other. *)
Definition pages_upto {A} (k : nat) (l : list A) : list A :=
  List.concat (map (fun p => slice_of_page (Z.of_nat p) l) (seq 1 k)).

(** The statuses a route may answer with. *)
Definition status_in (allowed : list Z) (resp : response) : Prop :=
  In (status resp) allowed.

(** The [success] field of a JSON response tells whether the status is 200. *)
Definition success_flag_agrees (resp : response) : Prop :=
  match json resp with
  | Some (VDict kv) =>
      dict_lookup "success" kv = Some (VBool (status resp =? 200))
  | Some _ => False
  | None => status resp <> 200
  end.

(** Every row has an id of its own, as a primary key has. *)
Definition unique_ids (st : Store) : Prop :=
  NoDup (map Question.id (questions st)).

(** * Properties *)

Unset Implicit Arguments.

(** ** The building blocks run as the Python ones do *)

Example py_int_ex1 : py_int " -12 " = Some (-12). Proof. reflexivity. Qed.
Example py_int_ex2 : py_int "1_000" = Some 1000. Proof. reflexivity. Qed.
Example py_int_ex3 : py_int "1__0" = None. Proof. reflexivity. Qed.
Example py_int_ex4 : py_int "abc" = None. Proof. reflexivity. Qed.
Example py_int_ex5 : py_int "" = None. Proof. reflexivity. Qed.
Example py_int_ex6 : py_int "7_" = None. Proof. reflexivity. Qed.
Example py_slice_ex1 : py_slice [1;2;3;4;5] (-3) (-1) = [3;4]. Proof. reflexivity. Qed.
Example py_slice_ex2 : py_slice [1;2;3;4;5] (-10) 0 = []. Proof. reflexivity. Qed.
Example py_slice_ex3 : py_slice [1;2;3;4;5] 3 13 = [4;5]. Proof. reflexivity. Qed.
Example str_in_ex1 : str_in (ascii_lower "TiT") (ascii_lower "What tItle?") = true. Proof. reflexivity. Qed.
Example py_int_ex7 : py_int (String (ascii_of_nat 28) "2") = None. Proof. reflexivity. Qed.

(** ** Slices *)

Lemma slice_index_range n i : 0 <= n -> 0 <= slice_index n i <= n.
Proof. unfold slice_index; destruct (i <? 0) eqn:E; lia. Qed.

(** A window that starts at a non-negative index holds the (at most) ten
    elements that follow the first [start] ones. *)
Lemma py_slice_window {A} (l : list A) (start : Z) :
  0 <= start ->
  py_slice l start (start + 10) = firstn 10 (skipn (Z.to_nat start) l).
Proof.
  intros Hs. unfold py_slice, slice_index.
  destruct (start <? 0) eqn:E1; [lia|].
  destruct (start + 10 <? 0) eqn:E2; [lia|].
  set (n := Z.of_nat (List.length l)).
  assert (Hn : n = Z.of_nat (List.length l)) by reflexivity.
  destruct (Z_le_gt_dec n start) as [Hge|Hlt].
  - rewrite (skipn_all2 (n := Z.to_nat start)) by lia.
    rewrite firstn_nil.
    replace (Z.to_nat (Z.min (start + 10) n - Z.min start n)) with 0%nat by lia.
    reflexivity.
  - replace (Z.min start n) with start by lia.
    destruct (Z_le_gt_dec (start + 10) n) as [Hfull|Hshort].
    + replace (Z.to_nat (Z.min (start + 10) n - start)) with 10%nat by lia.
      reflexivity.
    + assert (Hlen : List.length (skipn (Z.to_nat start) l) = Z.to_nat (n - start)).
      { rewrite length_skipn. lia. }
      replace (Z.min (start + 10) n - start) with (n - start) by lia.
      rewrite !firstn_all2; try reflexivity; lia.
Qed.

(** A window whose two bounds are negative is counted from the end: skip
    the last [m] elements, keep the (at most) ten before them. *)
Lemma py_slice_from_end {A} (l : list A) (m : Z) :
  0 < m ->
  py_slice l (- m - 10) (- m) = rev (firstn 10 (skipn (Z.to_nat m) (rev l))).
Proof.
  intros Hm. unfold py_slice, slice_index.
  destruct (- m - 10 <? 0) eqn:E1; [|lia].
  destruct (- m <? 0) eqn:E2; [|lia].
  set (n := List.length l).
  rewrite skipn_rev, firstn_rev, rev_involutive, length_firstn.
  fold n.
  rewrite skipn_firstn_comm.
  replace (Z.to_nat (Z.max (- m - 10 + Z.of_nat n) 0))
    with (Nat.min (n - Z.to_nat m) n - 10)%nat by lia.
  f_equal. lia.
Qed.

Lemma py_slice_length {A} (l : list A) (start : Z) :
  (List.length (py_slice l start (start + 10)) <= 10)%nat.
Proof.
  unfold py_slice. rewrite length_firstn.
  pose proof (slice_index_range (Z.of_nat (List.length l)) start (Nat2Z.is_nonneg _)).
  pose proof (slice_index_range (Z.of_nat (List.length l)) (start + 10) (Nat2Z.is_nonneg _)).
  unfold slice_index in *.
  destruct (start <? 0) eqn:E1; destruct (start + 10 <? 0) eqn:E2; lia.
Qed.

(** ** Ordering by id *)

Lemma insert_by_id_perm q l : Permutation (q :: l) (insert_by_id q l).
Proof.
  induction l as [|h t IH]; simpl.
  - apply Permutation_refl.
  - destruct (Question.id q <? Question.id h).
    + apply Permutation_refl.
    + eapply perm_trans; [apply perm_swap|]. now apply perm_skip.
Qed.

Lemma order_by_id_perm l : Permutation l (order_by_id l).
Proof.
  induction l as [|h t IH]; simpl.
  - constructor.
  - eapply perm_trans; [apply perm_skip, IH | apply insert_by_id_perm].
Qed.

Lemma insert_by_id_sorted q l :
  StronglySorted id_le l -> StronglySorted id_le (insert_by_id q l).
Proof.
  induction 1 as [|h t Hs IH Hall]; simpl.
  - repeat constructor.
  - destruct (Question.id q <? Question.id h) eqn:E.
    + constructor; [now constructor|].
      constructor; [unfold id_le; lia|].
      eapply Forall_impl; [|exact Hall].
      unfold id_le; intros; lia.
    + constructor; [exact IH|].
      eapply Permutation_Forall; [apply insert_by_id_perm|].
      constructor; [unfold id_le; lia | exact Hall].
Qed.

Lemma order_by_id_sorted l : StronglySorted id_le (order_by_id l).
Proof.
  induction l as [|h t IH]; simpl.
  - constructor.
  - now apply insert_by_id_sorted.
Qed.

Lemma order_by_id_length l : List.length (order_by_id l) = List.length l.
Proof. symmetry. apply Permutation_length, order_by_id_perm. Qed.

(** ** Substrings *)

Lemma starts_with_spec p s :
  starts_with p s = true <-> exists r, s = (p ++ r)%string.
Proof.
  revert s; induction p as [|a p IH]; intros s; simpl.
  - split; [intros _; now exists s | reflexivity].
  - destruct s as [|b s].
    + split; [discriminate | intros [r Hr]; discriminate].
    + rewrite andb_true_iff, Ascii.eqb_eq, IH. split.
      * intros [-> [r ->]]. now exists r.
      * intros [r Hr]. injection Hr as -> ->. split; [reflexivity | now exists r].
Qed.

Lemma str_in_spec needle hay :
  str_in needle hay = true <->
  exists l r, hay = (l ++ needle ++ r)%string.
Proof.
  induction hay as [|c hay IH]; simpl.
  - rewrite orb_false_r, starts_with_spec. split.
    + intros [r Hr]. now exists EmptyString, r.
    + intros [l [r Hr]]. destruct l; simpl in Hr.
      * now exists r.
      * discriminate.
  - rewrite orb_true_iff, starts_with_spec, IH. split.
    + intros [[r Hr] | [l [r Hr]]].
      * now exists EmptyString, r.
      * exists (String c l), r. simpl. now rewrite Hr.
    + intros [l [r Hr]]. destruct l as [|a l]; simpl in Hr.
      * left. now exists r.
      * right. injection Hr as _ Hr. now exists l, r.
Qed.

(** ** Lookups *)

Lemma Question_query_get_None st i :
  Question_query_get st i = None <->
  forall q, In q (questions st) -> Question.id q <> i.
Proof.
  unfold Question_query_get. split.
  - intros H q Hq Heq. apply (find_none _ _ H) in Hq. lia.
  - intros H. destruct (find _ _) eqn:E; [|reflexivity].
    apply find_some in E as [Hin Heq]. apply H in Hin. lia.
Qed.

Lemma Category_query_get_None st i :
  Category_query_get st i = None <->
  forall c, In c (categories st) -> Category.id c <> i.
Proof.
  unfold Category_query_get. split.
  - intros H c Hc Heq. apply (find_none _ _ H) in Hc. lia.
  - intros H. destruct (find _ _) eqn:E; [|reflexivity].
    apply find_some in E as [Hin Heq]. apply H in Hin. lia.
Qed.

(** With a string as search term, the comprehension is a filter. *)
Lemma matched_filter lower s qs :
  matched lower (VStr s) qs =
  Ok (map Question.format
          (filter (fun q => str_in (lower s) (lower (Question.question q))) qs)).
Proof.
  induction qs as [|q t IH]; simpl; [reflexivity|].
  rewrite IH. simpl.
  now destruct (str_in (lower s) (lower (Question.question q))).
Qed.

(** With a search term that is no string, the comprehension raises as soon
    as there is a row to test. *)
Lemma matched_not_str lower v qs :
  (forall s, v <> VStr s) -> qs <> [] -> matched lower v qs = Raise AttributeError.
Proof.
  intros Hv Hq. destruct qs as [|q t]; [contradiction|].
  simpl. destruct v; try reflexivity. now elim (Hv s).
Qed.

(** ** Pagination *)

Lemma paginate_questions_slice r selection :
  paginate_questions r selection =
  slice_of_page (page_of r) (map Question.format selection).
Proof. reflexivity. Qed.

Lemma slice_of_page_window {A} (page : Z) (l : list A) :
  1 <= page -> slice_of_page page l = window page l.
Proof.
  intros Hp. unfold slice_of_page, window.
  rewrite py_slice_window by lia.
  do 3 f_equal. lia.
Qed.

Lemma slice_of_page_from_end {A} (page : Z) (l : list A) :
  page < 0 -> slice_of_page page l = window_from_end page l.
Proof.
  intros Hp. unfold slice_of_page, window_from_end.
  replace ((page - 1) * 10) with (- (- 10 * page) - 10) by lia.
  replace (- (- 10 * page) - 10 + 10) with (- (- 10 * page)) by lia.
  apply py_slice_from_end. lia.
Qed.

Lemma slice_of_page_zero {A} (l : list A) : slice_of_page 0 l = [].
Proof.
  unfold slice_of_page, py_slice, slice_index. simpl.
  replace (Z.to_nat _) with 0%nat by lia. reflexivity.
Qed.

Lemma slice_of_page_nil {A} (page : Z) : slice_of_page page (@nil A) = [].
Proof.
  unfold slice_of_page, py_slice. now rewrite skipn_nil, firstn_nil.
Qed.

Lemma slice_of_page_length {A} (page : Z) (l : list A) :
  len (slice_of_page page l) <= 10.
Proof.
  unfold len, slice_of_page.
  pose proof (py_slice_length l ((page - 1) * 10)). lia.
Qed.

Lemma page_of_absent r : args_lookup "page" (args r) = None -> page_of r = 1.
Proof. unfold page_of, args_get_int. now intros ->. Qed.

Lemma page_of_invalid r s :
  args_lookup "page" (args r) = Some s -> py_int s = None -> page_of r = 1.
Proof. unfold page_of, args_get_int. now intros -> ->. Qed.

Lemma page_of_int r s n :
  args_lookup "page" (args r) = Some s -> py_int s = Some n -> page_of r = n.
Proof. unfold page_of, args_get_int. now intros -> ->. Qed.

(** ** [GET /categories/<id>/questions] *)

Lemma get_category_questions_found st r category_id c :
  Category_query_get st category_id = Some c ->
  GET_category_questions st r category_id =
  ok (category_page category_id
        (slice_of_page (page_of r)
           (map Question.format (Question_filter_by_category st category_id)))).
Proof.
  intros H. unfold GET_category_questions, get_category_questions.
  rewrite H. reflexivity.
Qed.

Lemma get_category_questions_missing st r category_id :
  Category_query_get st category_id = None ->
  GET_category_questions st r category_id = not_found.
Proof.
  intros H. unfold GET_category_questions, get_category_questions.
  rewrite H. reflexivity.
Qed.




(** C9, as the code has it: in every success response of the category
    listing, [total_questions] is the length of the returned slice, which is
    at most 10, and not the number of questions of the category; for a
    category with more than ten questions it is 10 on page 1 (the default
    page). *)
Theorem category_total_is_slice_length st r category_id v :
  GET_category_questions st r category_id = ok v ->
  exists shown,
    v = VDict [ (VStr "success", VBool true);
                (VStr "questions", VList shown);
                (VStr "total_questions", VInt (len shown));
                (VStr "current_category", VInt category_id) ] /\
    shown = slice_of_page (page_of r)
              (map Question.format (Question_filter_by_category st category_id)) /\
    len shown <= 10 /\
    (page_of r = 1 ->
     10 < len (Question_filter_by_category st category_id) ->
     len shown = 10 /\
     len shown < len (Question_filter_by_category st category_id)).
Proof.
  intros H.
  destruct (Category_query_get st category_id) as [c|] eqn:E.
  - rewrite (get_category_questions_found st r _ _ E) in H.
    injection H as <-.
    eexists. split; [reflexivity|]. split; [reflexivity|].
    split; [apply slice_of_page_length|].
    intros Hp Hlen. rewrite Hp, slice_of_page_window by lia.
    unfold window, len in *.
    replace (Z.to_nat (10 * (1 - 1))) with 0%nat by lia.
    cbn [skipn]. rewrite length_firstn, length_map. lia.
  - rewrite (get_category_questions_missing st r _ E) in H. discriminate H.
Qed.

Lemma category_total_is_slice_length_witness :
  GET_category_questions (store_of_size 12) get_plain 1 =
    ok (category_page 1 (map Question.format (sample_questions 10 0 1))) /\
  exists shown,
    category_page 1 (map Question.format (sample_questions 10 0 1)) =
      VDict [ (VStr "success", VBool true);
              (VStr "questions", VList shown);
              (VStr "total_questions", VInt (len shown));
              (VStr "current_category", VInt 1) ] /\
    shown = slice_of_page (page_of get_plain)
              (map Question.format (Question_filter_by_category (store_of_size 12) 1)) /\
    len shown <= 10 /\
    (page_of get_plain = 1 ->
     10 < len (Question_filter_by_category (store_of_size 12) 1) ->
     len shown = 10 /\
     len shown < len (Question_filter_by_category (store_of_size 12) 1)).
Proof.
  split; [reflexivity|].
  apply (category_total_is_slice_length (store_of_size 12) get_plain 1).
  reflexivity.
Defined.

(** C9, as the specification words it, fails: a category with fifteen questions,
    asked for [?page=2], answers with [total_questions = 5]. *)
Lemma category_total_on_page_two :
  10 < len (Question_filter_by_category (store_of_size 15) 1) /\
  exists shown,
    GET_category_questions (store_of_size 15) (get_with_page "2") 1 =
      ok (VDict [ (VStr "success", VBool true);
                  (VStr "questions", VList shown);
                  (VStr "total_questions", VInt 5);
                  (VStr "current_category", VInt 1) ]) /\
    VInt 5 <> VInt 10.
Proof.
  split; [reflexivity|].
  eexists. split; [reflexivity | discriminate].
Qed.

(** C5: the category listing answers 404 exactly when no category has the
    id; for an existing category that no question belongs to it answers
    with success and an empty list, on a store where the plain listing
    answers 404. *)
Theorem category_questions_not_found_iff st r category_id :
  (status (GET_category_questions st r category_id) = 404 <->
   forall c, In c (categories st) -> Category.id c <> category_id) /\
  ((forall c, In c (categories st) -> Category.id c <> category_id) ->
   GET_category_questions st r category_id = not_found) /\
  ((exists c, In c (categories st) /\ Category.id c = category_id) ->
   (forall q, In q (questions st) -> Question.category q <> category_id) ->
   GET_category_questions st r category_id =
     ok (VDict [ (VStr "success", VBool true);
                 (VStr "questions", VList []);
                 (VStr "total_questions", VInt 0);
                 (VStr "current_category", VInt category_id) ])) /\
  (questions st = [] -> GET_questions st r = not_found).
Proof.
  repeat split.
  - intros H. apply Category_query_get_None.
    destruct (Category_query_get st category_id) as [c|] eqn:E; [|reflexivity].
    rewrite (get_category_questions_found st r _ _ E) in H. discriminate H.
  - intros H. apply Category_query_get_None in H.
    now rewrite (get_category_questions_missing st r _ H).
  - intros H. apply Category_query_get_None in H.
    now apply get_category_questions_missing.
  - intros [c [Hin Hid]] Hq.
    destruct (Category_query_get st category_id) as [c'|] eqn:E.
    + rewrite (get_category_questions_found st r _ _ E).
      assert (Hnone : Question_filter_by_category st category_id = []).
      { unfold Question_filter_by_category.
        induction (questions st) as [|q t IH]; [reflexivity|]. simpl.
        destruct (Question.category q =? category_id) eqn:Eq.
        - exfalso. apply (Hq q); [now left | lia].
        - apply IH. intros q' Hq'. apply Hq. now right. }
      rewrite Hnone. simpl. rewrite slice_of_page_nil. reflexivity.
    + apply Category_query_get_None with (c := c) in E; [contradiction|assumption].
  - intros H. unfold GET_questions, retrieve_question, Question_query_order_by_id.
    rewrite paginate_questions_slice, H. cbn [order_by_id map].
    rewrite slice_of_page_nil. reflexivity.
Qed.

Lemma category_questions_not_found_iff_witness :
  (status (GET_category_questions empty_store get_plain 2) = 404 <->
   forall c, In c (categories empty_store) -> Category.id c <> 2) /\
  ((forall c, In c (categories empty_store) -> Category.id c <> 2) ->
   GET_category_questions empty_store get_plain 2 = not_found) /\
  ((exists c, In c (categories empty_store) /\ Category.id c = 2) ->
   (forall q, In q (questions empty_store) -> Question.category q <> 2) ->
   GET_category_questions empty_store get_plain 2 =
     ok (VDict [ (VStr "success", VBool true);
                 (VStr "questions", VList []);
                 (VStr "total_questions", VInt 0);
                 (VStr "current_category", VInt 2) ])) /\
  (questions empty_store = [] -> GET_questions empty_store get_plain = not_found).
Proof.
  apply (category_questions_not_found_iff empty_store get_plain 2).
Defined.

(** ** [GET /questions] *)

Lemma GET_questions_cases st r :
  GET_questions st r =
  match slice_of_page (page_of r) (map Question.format (Question_query_order_by_id st)) with
  | [] => not_found
  | shown =>
      ok (questions_page (len (questions st)) shown (categories_dict st))
  end.
Proof.
  unfold GET_questions, retrieve_question.
  rewrite paginate_questions_slice.
  destruct (slice_of_page _ _) as [|v shown] eqn:E.
  - reflexivity.
  - replace (len (v :: shown) =? 0) with false
      by (symmetry; unfold len; simpl; lia).
    unfold Question_query_order_by_id, len.
    rewrite order_by_id_length. reflexivity.
Qed.

(** C2: the plain listing orders all questions by ascending id and returns
    the slice from [(page-1)*10] to [(page-1)*10+10] of them, with
    [total_questions] the number of all questions and [current_category]
    null; it answers 404 "resource not found" exactly when that slice is
    empty, as it is on every page of a store without questions. *)
Theorem questions_listing st r :
  StronglySorted id_le (Question_query_order_by_id st) /\
  Permutation (questions st) (Question_query_order_by_id st) /\
  (slice_of_page (page_of r) (map Question.format (Question_query_order_by_id st)) <> [] ->
   GET_questions st r =
     ok (VDict [ (VStr "success", VBool true);
                 (VStr "total_questions", VInt (len (questions st)));
                 (VStr "questions",
                  VList (slice_of_page (page_of r)
                           (map Question.format (Question_query_order_by_id st))));
                 (VStr "current_category", VNone);
                 (VStr "categories", categories_dict st) ])) /\
  (1 <= page_of r ->
   slice_of_page (page_of r) (map Question.format (Question_query_order_by_id st)) =
   window (page_of r) (map Question.format (Question_query_order_by_id st))) /\
  (GET_questions st r =
     {| status := 404;
        json := Some (VDict [ (VStr "success", VBool false);
                              (VStr "error", VInt 404);
                              (VStr "message", VStr "resource not found") ]) |} <->
   slice_of_page (page_of r) (map Question.format (Question_query_order_by_id st)) = []) /\
  (status (GET_questions st r) = 404 <->
   slice_of_page (page_of r) (map Question.format (Question_query_order_by_id st)) = []) /\
  (questions st = [] -> status (GET_questions st r) = 404).
Proof.
  split; [apply order_by_id_sorted|].
  split; [apply order_by_id_perm|].
  pose proof (GET_questions_cases st r) as Hc.
  split; [|split; [apply slice_of_page_window|]].
  - intros Hne. rewrite Hc.
    destruct (slice_of_page _ _); [contradiction | reflexivity].
  - assert (Hiff : forall P : response -> Prop,
               P not_found -> (forall v, ~ P (ok v)) ->
               (P (GET_questions st r) <->
                slice_of_page (page_of r)
                  (map Question.format (Question_query_order_by_id st)) = [])).
    { intros P Hnf Hok. rewrite Hc.
      destruct (slice_of_page _ _) as [|v shown].
      - tauto.
      - split; [intros H; now apply Hok in H | discriminate]. }
    split; [|split].
    + apply (Hiff (fun x => x = _)); [reflexivity | intros v H; discriminate H].
    + apply (Hiff (fun x => status x = 404)); [reflexivity | intros v H; discriminate H].
    + intros Hq. apply (Hiff (fun x => status x = 404));
        [reflexivity | intros v H; discriminate H |].
      unfold Question_query_order_by_id. rewrite Hq. apply slice_of_page_nil.
Qed.

Lemma questions_listing_witness :
  StronglySorted id_le (Question_query_order_by_id (store_of_size 12)) /\
  Permutation (questions (store_of_size 12)) (Question_query_order_by_id (store_of_size 12)) /\
  GET_questions (store_of_size 12) (get_with_page "2") =
    ok (questions_page 12
          [Question.format (q_ 11 1 "What is the title?");
           Question.format (q_ 12 1 "What is the title?")]
          (VDict [(VInt 1, VStr "Science"); (VInt 2, VStr "Art")])) /\
  status (GET_questions (store_of_size 12) (get_with_page "3")) = 404.
Proof.
  destruct (questions_listing (store_of_size 12) (get_with_page "2"))
    as [Hs [Hp [Hok _]]].
  destruct (questions_listing (store_of_size 12) (get_with_page "3"))
    as [_ [_ [_ [_ [_ [H404 _]]]]]].
  split; [exact Hs|]. split; [exact Hp|]. split.
  - rewrite Hok; [reflexivity | discriminate].
  - apply H404. reflexivity.
Defined.

(** C10: on every store page 0 is answered with 404, its slice running from
    -10 to 0; a negative page is counted from the end of the list of
    questions: the last [-10*page] are skipped and the ten before them
    returned, so that page -1 over at least eleven questions is a success
    with a non-empty slice. *)
Theorem questions_page_zero_and_negative st r :
  (page_of r = 0 ->
   slice_of_page (page_of r) (map Question.format (Question_query_order_by_id st)) =
     py_slice (map Question.format (Question_query_order_by_id st)) (-10) 0 /\
   GET_questions st r = not_found) /\
  (page_of r < 0 ->
   paginate_questions r (Question_query_order_by_id st) =
     window_from_end (page_of r) (map Question.format (Question_query_order_by_id st))) /\
  (page_of r = -1 -> 11 <= len (questions st) ->
   exists shown,
     shown <> [] /\
     shown = window_from_end (-1) (map Question.format (Question_query_order_by_id st)) /\
     GET_questions st r =
       ok (questions_page (len (questions st)) shown (categories_dict st))).
Proof.
  split; [|split].
  - intros H0. split; [now rewrite H0|].
    rewrite GET_questions_cases, H0, slice_of_page_zero. reflexivity.
  - intros Hneg. rewrite paginate_questions_slice. now apply slice_of_page_from_end.
  - intros Hm Hlen.
    exists (window_from_end (-1) (map Question.format (Question_query_order_by_id st))).
    assert (Hne : window_from_end (-1)
                    (map Question.format (Question_query_order_by_id st)) <> []).
    { unfold window_from_end. intros Hnil.
      apply (f_equal (@List.length value)) in Hnil.
      rewrite length_rev, length_firstn, length_skipn, length_rev, length_map in Hnil.
      unfold Question_query_order_by_id in Hnil.
      rewrite order_by_id_length in Hnil.
      change (Z.to_nat (- 10 * -1)) with 10%nat in Hnil.
      unfold len in Hlen. cbn [List.length] in Hnil. lia. }
    split; [exact Hne|]. split; [reflexivity|].
    rewrite GET_questions_cases, Hm, slice_of_page_from_end by lia.
    destruct (window_from_end _ _); [contradiction | reflexivity].
Qed.

Lemma questions_page_zero_and_negative_witness :
  page_of (get_with_page "0") = 0 /\
  GET_questions (store_of_size 12) (get_with_page "0") = not_found /\
  page_of (get_with_page "-1") = -1 /\
  11 <= len (questions (store_of_size 12)) /\
  GET_questions (store_of_size 12) (get_with_page "-1") =
    ok (questions_page 12
          [Question.format (q_ 1 1 "What is the title?");
           Question.format (q_ 2 1 "What is the title?")]
          (VDict [(VInt 1, VStr "Science"); (VInt 2, VStr "Art")])).
Proof.
  destruct (questions_page_zero_and_negative (store_of_size 12) (get_with_page "0"))
    as [H0 _].
  destruct (questions_page_zero_and_negative (store_of_size 12) (get_with_page "-1"))
    as [_ [_ H1]].
  split; [reflexivity|]. split; [apply H0; reflexivity|].
  split; [reflexivity|]. split; [vm_compute; discriminate|].
  destruct (H1 eq_refl) as [shown [_ [Hs Hget]]]; [vm_compute; discriminate|].
  rewrite Hget, Hs. reflexivity.
Defined.

(** ** [DELETE /questions/<id>] *)

Lemma Question_query_get_Some st i q :
  Question_query_get st i = Some q -> In q (questions st) /\ Question.id q = i.
Proof.
  unfold Question_query_get. intros H.
  apply find_some in H as [Hin Heq]. split; [assumption | lia].
Qed.

Lemma Question_query_get_present st i :
  In i (map Question.id (questions st)) ->
  exists q, Question_query_get st i = Some q.
Proof.
  intros Hin. destruct (Question_query_get st i) as [q|] eqn:E.
  - now exists q.
  - apply in_map_iff in Hin as [q [Hid Hq]].
    now elim (proj1 (Question_query_get_None st i) E q Hq).
Qed.

Lemma Question_delete_absent commit_ok st q st' :
  Question_delete commit_ok st q = Ok st' ->
  forall q', In q' (questions st') <->
             In q' (questions st) /\ Question.id q' <> Question.id q.
Proof.
  unfold Question_delete. destruct commit_ok; [|discriminate].
  intros H q'. injection H as <-. simpl.
  rewrite filter_In, negb_true_iff, Z.eqb_neq. reflexivity.
Qed.

(** C3: deleting an id that no question has is answered with 422,
    [success = false] and the message "unprocessable", and leaves the store
    as it is; deleting an id that a question has, when the deletion goes
    through, is answered with [success = true], and the id is then absent
    from the questions, the listing of [GET /questions] included. *)
Theorem delete_question_contract commit_ok st question_id :
  ((forall q, In q (questions st) -> Question.id q <> question_id) ->
   DELETE_question commit_ok st question_id =
     ({| status := 422;
         json := Some (VDict [ (VStr "success", VBool false);
                               (VStr "error", VInt 422);
                               (VStr "message", VStr "unprocessable") ]) |}, st)) /\
  (In question_id (map Question.id (questions st)) ->
   exists q, Question_query_get st question_id = Some q /\
     forall st', Question_delete commit_ok st q = Ok st' ->
       DELETE_question commit_ok st question_id =
         ({| status := 200; json := Some (VDict [ (VStr "success", VBool true) ]) |}, st') /\
       ~ In question_id (map Question.id (questions st')) /\
       ~ In question_id (map Question.id (Question_query_order_by_id st')) /\
       (forall q', In q' (questions st) -> Question.id q' <> question_id ->
                   In q' (questions st'))).
Proof.
  split.
  - intros Habs. apply Question_query_get_None in Habs.
    unfold DELETE_question, delete_question. rewrite Habs. reflexivity.
  - intros Hin. destruct (Question_query_get_present st question_id Hin) as [q Hq].
    exists q. split; [exact Hq|]. intros st' Hdel.
    destruct (Question_query_get_Some st question_id q Hq) as [Hqin Hqid].
    pose proof (Question_delete_absent commit_ok st q st' Hdel) as Hafter.
    assert (Hgone : ~ In question_id (map Question.id (questions st'))).
    { intros H. apply in_map_iff in H as [q' [Hid Hq']].
      apply Hafter in Hq' as [_ Hne]. congruence. }
    split; [|split; [exact Hgone | split]].
    + unfold DELETE_question, delete_question. rewrite Hq, Hdel. reflexivity.
    + intros H. apply Hgone.
      eapply Permutation_in; [|exact H].
      apply Permutation_map, Permutation_sym, order_by_id_perm.
    + intros q' Hq' Hne. apply Hafter. split; [assumption | congruence].
Qed.

Lemma delete_question_contract_witness :
  ((forall q, In q (questions (store_of_size 3)) -> Question.id q <> 500) ->
   DELETE_question true (store_of_size 3) 500 = (unprocessable, store_of_size 3)) /\
  In 2 (map Question.id (questions (store_of_size 3))) /\
  DELETE_question true (store_of_size 3) 2 =
    (ok success_only,
     {| questions := [q_ 1 1 "What is the title?"; q_ 3 1 "What is the title?"];
        categories := [science; art] |}).
Proof.
  destruct (delete_question_contract true (store_of_size 3) 500) as [Hmiss _].
  destruct (delete_question_contract true (store_of_size 3) 2) as [_ Hhit].
  split; [exact Hmiss|].
  assert (Hin : In 2 (map Question.id (questions (store_of_size 3))))
    by (simpl; tauto).
  split; [exact Hin|].
  destruct (Hhit Hin) as [q [Hq Hdel]].
  injection Hq as <-.
  destruct (Hdel _ eq_refl) as [Hresp _].
  exact Hresp.
Defined.

(** ** [POST /quizzes] *)

Lemma sql_ints_ints l : sql_ints (map VInt l) = Ok l.
Proof.
  induction l as [|n t IH]; simpl; [reflexivity|].
  now rewrite IH.
Qed.

Lemma first_filter {A} (p : A -> bool) (l : list A) :
  first (filter p l) = find p l.
Proof.
  induction l as [|x t IH]; simpl; [reflexivity|].
  now destruct (p x).
Qed.

Lemma find_first_match {A} (p : A -> bool) (l : list A) (q : A) :
  find p l = Some q <-> first_match p l q.
Proof.
  unfold first_match. induction l as [|x t IH]; simpl.
  - split; [discriminate|].
    intros [before [after [H _]]]. now destruct before.
  - destruct (p x) eqn:Ex.
    + split.
      * intros H. injection H as <-.
        exists [], t. simpl. repeat split; [assumption | contradiction].
      * intros [before [after [H [Hq Hb]]]].
        destruct before as [|b before]; simpl in H; injection H as Hx Ht; subst.
        -- reflexivity.
        -- rewrite (Hb b) in Ex; [discriminate | now left].
    + rewrite IH. split.
      * intros [before [after [-> [Hq Hb]]]].
        exists (x :: before), after. simpl. repeat split; [assumption|].
        intros y [<- | Hy]; [assumption | now apply Hb].
      * intros [before [after [H [Hq Hb]]]].
        destruct before as [|b before]; simpl in H; injection H as Hx Ht; subst.
        -- congruence.
        -- exists before, after. repeat split; [assumption|].
           intros y Hy. apply Hb. now right.
Qed.

Lemma find_same {A} (p p' : A -> bool) (l : list A) :
  (forall x, p x = p' x) -> find p l = find p' l.
Proof.
  intros H. induction l as [|x t IH]; simpl; [reflexivity|].
  now rewrite H, IH.
Qed.

Lemma find_no_match {A} (p : A -> bool) (l : list A) :
  find p l = None <-> forall x, In x l -> p x = false.
Proof.
  split; [apply find_none|].
  intros H. destruct (find p l) eqn:E; [|reflexivity].
  apply find_some in E as [Hin Hp]. rewrite (H _ Hin) in Hp. discriminate.
Qed.

(** What [get_quiz_questions] answers on a well-formed body: the first
    eligible question, found in the order of the store. *)
Lemma POST_quizzes_find st r kv qc previous category_id :
  data r = Json (VDict kv) ->
  dict_lookup "previous_questions" kv = Some (VList (map VInt previous)) ->
  dict_lookup "quiz_category" kv = Some (VDict qc) ->
  dict_lookup "id" qc = Some (VInt category_id) ->
  POST_quizzes st r =
  match find (eligible previous category_id) (questions st) with
  | Some q => ok (VDict [ (VStr "success", VBool true);
                          (VStr "question", Question.format q) ])
  | None => ok (VDict [ (VStr "success", VBool true) ])
  end.
Proof.
  intros Hd Hp Hc Hi.
  unfold POST_quizzes, get_quiz_questions, get_json. rewrite Hd. simpl.
  rewrite Hp, Hc. simpl. rewrite Hi. simpl.
  unfold Question_query_filter. simpl. rewrite sql_ints_ints. simpl.
  destruct (category_id =? 0) eqn:E0; simpl; rewrite first_filter.
  - rewrite (find_same (eligible previous category_id)
               (fun q => negb (mem (Question.id q) previous))).
    + now destruct (find _ _).
    + intros q. unfold eligible. rewrite E0. simpl. apply andb_true_r.
  - rewrite (find_same (eligible previous category_id)
               (fun q => ((Question.category q =? category_id)
                          && negb (mem (Question.id q) previous))%bool)).
    + now destruct (find _ _).
    + intros q. unfold eligible. rewrite E0. simpl. apply andb_comm.
Qed.

(** C4: on a body with a list of ids as [previous_questions] and an id in
    [quiz_category], [/quizzes] returns the first question, in the order of
    the store, whose id is not among the previous ones and whose category is
    the quiz category unless that is 0; when no question qualifies it
    answers [{success: true}] without a question. *)
Theorem quiz_returns_first_eligible st r kv qc previous category_id :
  data r = Json (VDict kv) ->
  dict_lookup "previous_questions" kv = Some (VList (map VInt previous)) ->
  dict_lookup "quiz_category" kv = Some (VDict qc) ->
  dict_lookup "id" qc = Some (VInt category_id) ->
  (forall q,
     first_match (eligible previous category_id) (questions st) q ->
     POST_quizzes st r =
       {| status := 200;
          json := Some (VDict [ (VStr "success", VBool true);
                                (VStr "question", Question.format q) ]) |}) /\
  ((forall q, In q (questions st) -> eligible previous category_id q = false) ->
   POST_quizzes st r =
     {| status := 200; json := Some (VDict [ (VStr "success", VBool true) ]) |}) /\
  ((exists q, first_match (eligible previous category_id) (questions st) q) \/
   (forall q, In q (questions st) -> eligible previous category_id q = false)) /\
  (forall q,
     eligible previous category_id q = true <->
     ~ In (Question.id q) previous /\
     (category_id <> 0 -> Question.category q = category_id)).
Proof.
  intros Hd Hp Hc Hi.
  pose proof (POST_quizzes_find st r kv qc previous category_id Hd Hp Hc Hi) as Hf.
  split; [|split; [|split]].
  - intros q Hq. apply find_first_match in Hq. now rewrite Hf, Hq.
  - intros Hnone. apply find_no_match in Hnone. now rewrite Hf, Hnone.
  - destruct (find (eligible previous category_id) (questions st)) as [q|] eqn:E.
    + left. exists q. now apply find_first_match.
    + right. now apply find_no_match.
  - intros q. unfold eligible, mem.
    rewrite andb_true_iff, negb_true_iff, orb_true_iff, !Z.eqb_eq.
    split.
    + intros [Hm Hcat]. split.
      * intros Hin. apply not_true_iff_false in Hm. apply Hm.
        apply existsb_exists. exists (Question.id q). split; [assumption|].
        apply Z.eqb_refl.
      * intros Hne. destruct Hcat; [contradiction | assumption].
    + intros [Hm Hcat]. split.
      * apply not_true_iff_false. intros Hex.
        apply existsb_exists in Hex as [x [Hx Heq]].
        apply Z.eqb_eq in Heq. subst x. contradiction.
      * destruct (Z.eq_dec category_id 0); [now left | right; now apply Hcat].
Qed.

Lemma quiz_returns_first_eligible_witness :
  data (post_json (quiz_body [3] 2)) =
    Json (VDict [ (VStr "previous_questions", VList (map VInt [3]));
                  (VStr "quiz_category",
                   VDict [ (VStr "type", VStr "click"); (VStr "id", VInt 2) ]) ]) /\
  first_match (eligible [3] 2) (questions mixed_store) (q_ 4 2 "Where is the lake?") /\
  POST_quizzes mixed_store (post_json (quiz_body [3] 2)) =
    ok (VDict [ (VStr "success", VBool true);
                (VStr "question", Question.format (q_ 4 2 "Where is the lake?")) ]) /\
  POST_quizzes mixed_store (post_json (quiz_body [1; 2; 3; 4] 0)) =
    ok (VDict [ (VStr "success", VBool true) ]).
Proof.
  assert (Hfirst : first_match (eligible [3] 2) (questions mixed_store)
                     (q_ 4 2 "Where is the lake?"))
    by (apply find_first_match; reflexivity).
  split; [reflexivity|]. split; [exact Hfirst|]. split.
  - destruct (quiz_returns_first_eligible mixed_store (post_json (quiz_body [3] 2))
                _ _ [3] 2 eq_refl eq_refl eq_refl eq_refl) as [H _].
    exact (H _ Hfirst).
  - destruct (quiz_returns_first_eligible mixed_store
                (post_json (quiz_body [1; 2; 3; 4] 0))
                _ _ [1; 2; 3; 4] 0 eq_refl eq_refl eq_refl eq_refl) as [_ [H _]].
    apply H. intros q Hq. simpl in Hq.
    destruct Hq as [<- | [<- | [<- | [<- | []]]]]; reflexivity.
Defined.

(** ** [POST /search] *)

Lemma search_questions_term lower st r kv :
  data r = Json (VDict kv) ->
  search_questions lower st r =
  (matched_questions <- matched lower (entry kv "searchTerm") (questions st) ;;
   Ok (search_page (len matched_questions) matched_questions)).
Proof.
  intros Hd. unfold search_questions, get_json, entry.
  rewrite Hd. simpl. now destruct (dict_lookup "searchTerm" kv).
Qed.

(** C6, as the code has it: with a string as [searchTerm], and whatever
    [str.lower] does to a text, [/search] returns exactly the questions
    whose lowered text contains the lowered term, all of them and in the
    order of the store whatever the query string says, with
    [total_questions] the length of the returned list and
    [current_category] null. *)
Theorem search_returns_matches (lower : string -> string) st r kv term :
  data r = Json (VDict kv) ->
  dict_lookup "searchTerm" kv = Some (VStr term) ->
  exists hits,
    POST_search lower st r =
      {| status := 200;
         json := Some (VDict [ (VStr "success", VBool true);
                               (VStr "questions", VList (map Question.format hits));
                               (VStr "total_questions",
                                VInt (len (map Question.format hits)));
                               (VStr "current_category", VNone) ]) |} /\
    hits = filter (fun q => str_in (lower term) (lower (Question.question q)))
                  (questions st) /\
    (forall q, In q hits <->
               In q (questions st) /\ contains_nocase lower (Question.question q) term).
Proof.
  intros Hd Ht.
  eexists. split; [|split; [reflexivity|]].
  - unfold POST_search. rewrite (search_questions_term lower st r kv Hd).
    unfold entry. rewrite Ht, matched_filter. reflexivity.
  - intros q. rewrite filter_In, str_in_spec. reflexivity.
Qed.

Lemma search_returns_matches_witness :
  data {| args := [("page", "2")]; data := Json (VDict [(VStr "searchTerm", VStr "Title")]) |} =
    Json (VDict [(VStr "searchTerm", VStr "Title")]) /\
  dict_lookup "searchTerm" [(VStr "searchTerm", VStr "Title")] = Some (VStr "Title") /\
  POST_search ascii_lower mixed_store
    {| args := [("page", "2")]; data := Json (VDict [(VStr "searchTerm", VStr "Title")]) |} =
    ok (search_page 2
          [ Question.format (q_ 1 1 "What is the TITLE of the film?");
            Question.format (q_ 3 2 "Which title did she win?") ]).
Proof.
  split; [reflexivity|]. split; [reflexivity|].
  destruct (search_returns_matches ascii_lower mixed_store
              {| args := [("page", "2")];
                 data := Json (VDict [(VStr "searchTerm", VStr "Title")]) |}
              _ "Title" eq_refl eq_refl) as [hits [H [Hhits _]]].
  rewrite H, Hhits. reflexivity.
Defined.

(** C6, as the specification words it, fails: a search term that is not
    null need not be a string, and a number as term ends in a server error
    as soon as there is a question to test. *)
Lemma search_number_as_term :
  VInt 7 <> VNone /\
  questions (store_of_size 1) <> [] /\
  POST_search ascii_lower (store_of_size 1)
    (post_json (VDict [(VStr "searchTerm", VInt 7)])) =
    {| status := 500; json := None |}.
Proof. repeat split; try discriminate. Qed.

(** C7, as the code has it: when the body is a JSON object without a
    [searchTerm] (or with a null one), [/search] fails with an exception
    that nothing catches, a server error and none of the handled responses,
    as soon as the store holds a question; on a store without questions the
    term is never dereferenced and the answer is a success with an empty
    list. *)
Theorem search_without_term (lower : string -> string) st r kv :
  data r = Json (VDict kv) ->
  entry kv "searchTerm" = VNone ->
  (questions st <> [] ->
   search_questions lower st r = Raise AttributeError /\
   POST_search lower st r = {| status := 500; json := None |}) /\
  (questions st = [] ->
   POST_search lower st r =
     {| status := 200;
        json := Some (VDict [ (VStr "success", VBool true);
                              (VStr "questions", VList []);
                              (VStr "total_questions", VInt 0);
                              (VStr "current_category", VNone) ]) |}).
Proof.
  intros Hd Ht. split.
  - intros Hne.
    assert (Hm : matched lower VNone (questions st) = Raise AttributeError)
      by (apply matched_not_str; [discriminate | assumption]).
    unfold POST_search.
    rewrite (search_questions_term lower st r kv Hd), Ht, Hm. now split.
  - intros He. unfold POST_search.
    rewrite (search_questions_term lower st r kv Hd), Ht, He. reflexivity.
Qed.

Lemma search_without_term_witness :
  data (post_json (VDict [])) = Json (VDict []) /\
  entry [] "searchTerm" = VNone /\
  POST_search ascii_lower mixed_store (post_json (VDict [])) = server_error /\
  POST_search ascii_lower empty_store (post_json (VDict [])) = ok (search_page 0 []).
Proof.
  destruct (search_without_term ascii_lower mixed_store (post_json (VDict [])) [] eq_refl eq_refl)
    as [H _].
  destruct (search_without_term ascii_lower empty_store (post_json (VDict [])) [] eq_refl eq_refl)
    as [_ H'].
  split; [reflexivity|]. split; [reflexivity|]. split.
  - apply H. discriminate.
  - apply H'. reflexivity.
Defined.

(** C7, as the specification words it, fails: on a store without questions a body
    without [searchTerm] is answered with a success, not with a failure. *)
Lemma search_without_term_on_empty_store :
  POST_search ascii_lower empty_store (post_json (VDict [])) =
    {| status := 200;
       json := Some (VDict [ (VStr "success", VBool true);
                             (VStr "questions", VList []);
                             (VStr "total_questions", VInt 0);
                             (VStr "current_category", VNone) ]) |} /\
  status (POST_search ascii_lower empty_store (post_json (VDict []))) <> 500.
Proof. split; [reflexivity | discriminate]. Qed.

(** ** [POST /questions] *)

Lemma create_question_body ins st r kv :
  data r = Json (VDict kv) ->
  create_question ins st r =
  try_except_abort
    (st' <- ins st (entry kv "question") (entry kv "answer")
                   (entry kv "category") (entry kv "difficulty") ;;
     Ok (success_only, st'))
    400.
Proof.
  intros Hd. unfold create_question, get_json, entry. rewrite Hd. simpl.
  destruct (dict_lookup "question" kv), (dict_lookup "answer" kv),
    (dict_lookup "category" kv), (dict_lookup "difficulty" kv); reflexivity.
Qed.

Lemma create_question_no_body ins st r :
  (forall kv, data r <> Json (VDict kv)) ->
  create_question ins st r = Abort 400.
Proof.
  intros Hd. unfold create_question, get_json.
  destruct (data r) as [| |v]; try reflexivity.
  destruct v; try reflexivity. now elim (Hd kv).
Qed.

(** C8: whatever the insertion of the store does, [POST /questions] either
    answers 400, [success = false], "bad request" and leaves the store as it
    is, or answers [{success: true}] and nothing else.  It answers 400 when
    the body is missing, is not JSON, cannot be parsed or is not a JSON
    object, and when the insertion raises; it answers with the success
    exactly when the insertion of the four fields of the body returns. *)
Theorem create_question_contract
    (ins : Store -> value -> value -> value -> value -> outcome Store) st r :
  (POST_questions ins st r =
     ({| status := 400;
         json := Some (VDict [ (VStr "success", VBool false);
                               (VStr "error", VInt 400);
                               (VStr "message", VStr "bad request") ]) |}, st) \/
   exists st',
     POST_questions ins st r =
       ({| status := 200; json := Some (VDict [ (VStr "success", VBool true) ]) |}, st')) /\
  ((forall kv, data r <> Json (VDict kv)) ->
   POST_questions ins st r = (bad_request, st)) /\
  (forall kv, data r = Json (VDict kv) ->
     (forall st',
        ins st (entry kv "question") (entry kv "answer")
               (entry kv "category") (entry kv "difficulty") = Ok st' ->
        POST_questions ins st r = (ok success_only, st')) /\
     ((forall st',
         ins st (entry kv "question") (entry kv "answer")
                (entry kv "category") (entry kv "difficulty") <> Ok st') ->
      POST_questions ins st r = (bad_request, st))).
Proof.
  assert (Hno : (forall kv, data r <> Json (VDict kv)) ->
                POST_questions ins st r = (bad_request, st)).
  { intros Hd. unfold POST_questions.
    now rewrite (create_question_no_body ins st r Hd). }
  assert (Hbody : forall kv, data r = Json (VDict kv) ->
     (forall st',
        ins st (entry kv "question") (entry kv "answer")
               (entry kv "category") (entry kv "difficulty") = Ok st' ->
        POST_questions ins st r = (ok success_only, st')) /\
     ((forall st',
         ins st (entry kv "question") (entry kv "answer")
                (entry kv "category") (entry kv "difficulty") <> Ok st') ->
      POST_questions ins st r = (bad_request, st))).
  { intros kv Hd. unfold POST_questions.
    rewrite (create_question_body ins st r kv Hd). split.
    - intros st' Hi. now rewrite Hi.
    - intros Hi. destruct (ins st _ _ _ _) as [st'| |]; try reflexivity.
      now elim (Hi st'). }
  split; [|split; assumption].
  destruct (data r) as [| |v] eqn:Hd.
  - left. apply Hno. congruence.
  - left. apply Hno. congruence.
  - destruct v; try (left; apply Hno; congruence).
    destruct (Hbody kv eq_refl) as [Hok Hfail].
    destruct (ins st (entry kv "question") (entry kv "answer")
                     (entry kv "category") (entry kv "difficulty")) as [st'| |] eqn:Hi.
    + right. exists st'. now apply Hok.
    + left. apply Hfail. intros st'. discriminate.
    + left. apply Hfail. intros st'. discriminate.
Qed.

Lemma create_question_contract_witness :
  POST_questions insert_typed empty_store {| args := []; data := BadJson |} =
    (bad_request, empty_store) /\
  POST_questions insert_typed empty_store
    (post_json (VDict [ (VStr "question", VStr "Who was the founder of Apple?");
                        (VStr "answer", VStr "Steve Jobs");
                        (VStr "category", VInt 4);
                        (VStr "difficulty", VInt 2) ])) =
    (ok success_only,
     {| questions := [Question.make 1 "Who was the founder of Apple?" "Steve Jobs" 4 2];
        categories := [science; art] |}) /\
  POST_questions insert_typed empty_store
    (post_json (VDict [ (VStr "question", VStr "Who?") ])) =
    (bad_request, empty_store).
Proof.
  split; [|split].
  - apply (create_question_contract insert_typed empty_store
             {| args := []; data := BadJson |}).
    discriminate.
  - eapply (create_question_contract insert_typed empty_store); reflexivity.
  - eapply (create_question_contract insert_typed empty_store);
      [reflexivity | discriminate].
Defined.

(** * Further properties of the view functions *)

(** ** [GET /categories] *)

Lemma dict_lookup_int_set d k v k' :
  dict_lookup_int k' (dict_set d k v) =
  if k =? k' then Some v else dict_lookup_int k' d.
Proof.
  induction d as [|[key w] t IH]; simpl.
  - reflexivity.
  - destruct key; simpl; try exact IH.
    destruct (n =? k) eqn:E; simpl.
    + apply Z.eqb_eq in E. subst n. now destruct (k =? k').
    + rewrite IH. destruct (n =? k') eqn:E'; [|reflexivity].
      apply Z.eqb_eq in E'. subst n. now rewrite Z.eqb_sym, E.
Qed.

Lemma int_keys_set d k v :
  int_keys (dict_set d k v) =
  if mem k (int_keys d) then int_keys d else int_keys d ++ [k].
Proof.
  unfold mem. induction d as [|[key w] t IH]; simpl.
  - reflexivity.
  - destruct key; simpl; try exact IH.
    rewrite (Z.eqb_sym k n).
    destruct (n =? k) eqn:E; simpl; [reflexivity|].
    rewrite IH. now destruct (existsb (Z.eqb k) (int_keys t)).
Qed.

Lemma only_int_keys_set d k v :
  map fst d = map VInt (int_keys d) ->
  map fst (dict_set d k v) = map VInt (int_keys (dict_set d k v)).
Proof.
  induction d as [|[key w] t IH]; simpl.
  - reflexivity.
  - destruct key; simpl; intros H;
      try (destruct (int_keys t); discriminate H).
    injection H as H.
    destruct (n =? k); simpl; f_equal; auto.
Qed.

Lemma mem_In k l : mem k l = true <-> In k l.
Proof.
  unfold mem. rewrite existsb_exists. split.
  - intros [x [Hx E]]. apply Z.eqb_eq in E. now subst.
  - intros H. exists k. split; [assumption | apply Z.eqb_refl].
Qed.

Lemma find_app_last {A} (p : A -> bool) (l : list A) (x : A) :
  find p (l ++ [x]) =
  match find p l with
  | Some y => Some y
  | None => if p x then Some x else None
  end.
Proof.
  induction l as [|h t IH]; simpl; [reflexivity|].
  now destruct (p h).
Qed.

(** The loop over the categories, from any dict built so far. *)
Lemma categories_loop cs d :
  let d' := fold_left (fun d c => dict_set d (Category.id c) (VStr (Category.type c))) cs d in
  (forall k,
     dict_lookup_int k d' =
     match find (fun c => Category.id c =? k) (rev cs) with
     | Some c => Some (VStr (Category.type c))
     | None => dict_lookup_int k d
     end) /\
  (forall k, In k (int_keys d') <-> In k (int_keys d) \/ In k (map Category.id cs)) /\
  (NoDup (int_keys d) -> NoDup (int_keys d')) /\
  (map fst d = map VInt (int_keys d) -> map fst d' = map VInt (int_keys d')).
Proof.
  revert d. induction cs as [|c t IH]; intros d; simpl.
  - repeat split; tauto.
  - destruct (IH (dict_set d (Category.id c) (VStr (Category.type c))))
      as [Hl [Hk [Hn Ho]]].
    split; [|split; [|split]].
    + intros k. rewrite Hl, find_app_last, dict_lookup_int_set.
      destruct (find _ (rev t)); [reflexivity|].
      now destruct (Category.id c =? k).
    + intros k. rewrite Hk, int_keys_set.
      destruct (mem (Category.id c) (int_keys d)) eqn:E.
      * apply mem_In in E. split; [tauto|].
        intros [H|[<-|H]]; tauto.
      * rewrite in_app_iff. simpl. tauto.
    + intros Hd. apply Hn. rewrite int_keys_set.
      destruct (mem (Category.id c) (int_keys d)) eqn:E; [assumption|].
      apply NoDup_app; [assumption | repeat constructor; tauto |].
      intros x Hx [<-|[]]. apply mem_In in Hx. congruence.
    + intros Hd. apply Ho. now apply only_int_keys_set.
Qed.

(** X1: [GET /categories] always succeeds, with a mapping that has one key
    per category id of the store and no others, no key twice, and that maps
    an id to the type of the last category row with that id. *)
Theorem categories_mapping st :
  exists d,
    GET_categories st =
      {| status := 200;
         json := Some (VDict [ (VStr "success", VBool true);
                               (VStr "categories", VDict d) ]) |} /\
    map fst d = map VInt (int_keys d) /\
    NoDup (int_keys d) /\
    (forall k, In k (int_keys d) <-> In k (map Category.id (categories st))) /\
    (forall k,
       dict_lookup_int k d =
       option_map (fun c => VStr (Category.type c))
                  (find (fun c => Category.id c =? k) (rev (categories st)))).
Proof.
  destruct (categories_loop (categories st) []) as [Hl [Hk [Hn Ho]]].
  eexists. split; [reflexivity|]. unfold Category_query_all.
  split; [now apply Ho|]. split; [apply Hn; constructor|]. split.
  - intros k. rewrite (Hk k). simpl. tauto.
  - intros k. rewrite (Hl k). now destruct (find _ _).
Qed.

(** ** [paginate_questions] *)

Lemma py_slice_segment {A} (l : list A) (start stop : Z) :
  exists before after, l = before ++ py_slice l start stop ++ after.
Proof.
  unfold py_slice.
  set (lo := Z.to_nat (slice_index (Z.of_nat (List.length l)) start)).
  set (k := Z.to_nat _).
  exists (firstn lo l), (skipn k (skipn lo l)).
  now rewrite !firstn_skipn.
Qed.

Lemma py_slice_map {A B} (f : A -> B) (l : list A) (start stop : Z) :
  py_slice (map f l) start stop = map f (py_slice l start stop).
Proof.
  unfold py_slice. now rewrite length_map, skipn_map, firstn_map.
Qed.

Lemma paginate_questions_split r selection :
  exists before shown after,
    selection = before ++ shown ++ after /\
    paginate_questions r selection = map Question.format shown /\
    (List.length shown <= 10)%nat.
Proof.
  rewrite paginate_questions_slice. unfold slice_of_page.
  rewrite py_slice_map.
  destruct (py_slice_segment selection ((page_of r - 1) * 10)
              ((page_of r - 1) * 10 + 10)) as [before [after H]].
  exists before, (py_slice selection ((page_of r - 1) * 10) ((page_of r - 1) * 10 + 10)), after.
  split; [exact H|]. split; [reflexivity | apply py_slice_length].
Qed.

(** X2: a page never reorders, repeats or invents questions: the selection
    splits into the rows before the page, at most ten rows that the page
    serializes one by one, and the rows after it. *)
Theorem paginate_questions_segment r selection :
  exists before shown after,
    selection = before ++ shown ++ after /\
    paginate_questions r selection = map Question.format shown /\
    (List.length shown <= 10)%nat /\
    (forall q, In q shown -> In q selection).
Proof.
  destruct (paginate_questions_split r selection)
    as [before [shown [after [Hsplit [Hpage Hlen]]]]].
  exists before, shown, after.
  repeat split; try assumption.
  intros q Hq. rewrite Hsplit, !in_app_iff. tauto.
Qed.

Lemma firstn_plus {A} (a b : nat) (l : list A) :
  firstn (a + b) l = firstn a l ++ firstn b (skipn a l).
Proof.
  revert l. induction a as [|a IH]; intros l; simpl; [reflexivity|].
  destruct l as [|x t]; simpl.
  - now rewrite firstn_nil.
  - now rewrite IH.
Qed.

Lemma pages_upto_firstn {A} (k : nat) (l : list A) :
  pages_upto k l = firstn (10 * k) l.
Proof.
  unfold pages_upto. induction k as [|k IH].
  - reflexivity.
  - rewrite seq_S, map_app, concat_app, IH. cbn [map List.concat].
    rewrite app_nil_r, slice_of_page_window by lia.
    unfold window.
    replace (Z.to_nat (10 * (Z.of_nat (1 + k) - 1))) with (10 * k)%nat by lia.
    replace (10 * S k)%nat with (10 * k + 10)%nat by lia.
    now rewrite firstn_plus.
Qed.

(** X3: the pages 1, 2, ..., k of a selection, asked for one after the
    other, are the first [10*k] rows of the selection, each once and in
    order; when [10*k] reaches the end of the selection they are all of
    it. *)
Theorem pages_cover_the_list (rs : list request) (selection : list Question.t) :
  map page_of rs = map Z.of_nat (seq 1 (List.length rs)) ->
  List.concat (map (fun r => paginate_questions r selection) rs) =
    map Question.format (firstn (10 * List.length rs) selection) /\
  ((List.length selection <= 10 * List.length rs)%nat ->
   List.concat (map (fun r => paginate_questions r selection) rs) =
     map Question.format selection).
Proof.
  intros Hpages.
  assert (H : List.concat (map (fun r => paginate_questions r selection) rs) =
              map Question.format (firstn (10 * List.length rs) selection)).
  { rewrite <- firstn_map, <- pages_upto_firstn. unfold pages_upto. f_equal.
    transitivity (map (fun z => slice_of_page z (map Question.format selection))
                      (map page_of rs)).
    - rewrite map_map. apply map_ext. intros r. apply paginate_questions_slice.
    - rewrite Hpages, map_map. reflexivity. }
  split; [exact H|].
  intros Hk. rewrite H. now rewrite firstn_all2.
Qed.

Lemma pages_cover_the_list_witness :
  map page_of [get_with_page "1"; get_with_page "2"] =
    map Z.of_nat (seq 1 (List.length [get_with_page "1"; get_with_page "2"])) /\
  List.concat (map (fun r => paginate_questions r (sample_questions 25 0 1))
                   [get_with_page "1"; get_with_page "2"]) =
    map Question.format (sample_questions 20 0 1).
Proof.
  assert (H : map page_of [get_with_page "1"; get_with_page "2"] =
              map Z.of_nat (seq 1 (List.length [get_with_page "1"; get_with_page "2"])))
    by reflexivity.
  split; [exact H|].
  exact (proj1 (pages_cover_the_list [get_with_page "1"; get_with_page "2"]
                  (sample_questions 25 0 1) H)).
Defined.

(** ** [GET /questions], page by page *)

Lemma window_len {A} (page : Z) (l : list A) :
  1 <= page ->
  len (window page l) = Z.max 0 (Z.min 10 (len l - 10 * (page - 1))).
Proof.
  intros Hp. unfold window, len. rewrite length_firstn, length_skipn. lia.
Qed.

Lemma window_from_end_len {A} (page : Z) (l : list A) :
  page < 0 ->
  len (window_from_end page l) = Z.max 0 (Z.min 10 (len l + 10 * page)).
Proof.
  intros Hp. unfold window_from_end, len.
  rewrite length_rev, length_firstn, length_skipn, length_rev. lia.
Qed.

Lemma len_nil_iff {A} (l : list A) : l = [] <-> len l = 0.
Proof.
  unfold len. destruct l; simpl; split; try reflexivity; try discriminate; lia.
Qed.

(** X4: which pages of [GET /questions] exist.  The answer is 404 exactly
    for page 0, for a page [p >= 1] with [10*(p-1)] at or beyond the number
    of questions, and for a page [p < 0] with [-10*p] at or beyond it; every
    other page is a success, and for [p >= 1] it shows
    [min 10 (n - 10*(p-1))] questions. *)
Theorem questions_pages_that_exist st r :
  (status (GET_questions st r) = 404 <->
   page_of r = 0 \/
   (1 <= page_of r /\ len (questions st) <= 10 * (page_of r - 1)) \/
   (page_of r < 0 /\ len (questions st) <= - 10 * page_of r)) /\
  (status (GET_questions st r) = 200 \/ status (GET_questions st r) = 404) /\
  (1 <= page_of r -> status (GET_questions st r) = 200 ->
   exists shown,
     json (GET_questions st r) =
       Some (questions_page (len (questions st)) shown (categories_dict st)) /\
     len shown = Z.min 10 (len (questions st) - 10 * (page_of r - 1)) /\
     1 <= len shown).
Proof.
  pose proof (GET_questions_cases st r) as Hc.
  assert (Hn : len (map Question.format (Question_query_order_by_id st)) =
               len (questions st)).
  { unfold len, Question_query_order_by_id.
    now rewrite length_map, order_by_id_length. }
  assert (H404 : status (GET_questions st r) = 404 <->
                 len (slice_of_page (page_of r)
                        (map Question.format (Question_query_order_by_id st))) = 0).
  { rewrite <- len_nil_iff, Hc.
    destruct (slice_of_page _ _); simpl; split; try reflexivity; discriminate. }
  split; [|split].
  - rewrite H404.
    destruct (Z_lt_ge_dec (page_of r) 0) as [Hneg|Hnn].
    + rewrite slice_of_page_from_end, window_from_end_len, Hn by assumption. lia.
    + destruct (Z.eq_dec (page_of r) 0) as [H0|H0].
      * rewrite H0, slice_of_page_zero. unfold len. simpl. lia.
      * rewrite slice_of_page_window, window_len, Hn by lia. lia.
  - rewrite Hc. destruct (slice_of_page _ _); [now right | now left].
  - intros Hp H200. rewrite Hc in *.
    assert (Hw := window_len (page_of r)
                    (map Question.format (Question_query_order_by_id st)) Hp).
    rewrite <- slice_of_page_window, Hn in Hw by assumption.
    destruct (slice_of_page _ _) as [|v shown] eqn:E; [discriminate H200|].
    exists (v :: shown). split; [reflexivity|].
    assert (1 <= len (v :: shown)) by (unfold len; simpl; lia).
    lia.
Qed.

Lemma questions_pages_that_exist_witness :
  1 <= page_of (get_with_page "2") /\
  status (GET_questions (store_of_size 12) (get_with_page "2")) = 200 /\
  exists shown,
    json (GET_questions (store_of_size 12) (get_with_page "2")) =
      Some (questions_page (len (questions (store_of_size 12))) shown
              (categories_dict (store_of_size 12))) /\
    len shown = Z.min 10 (len (questions (store_of_size 12))
                          - 10 * (page_of (get_with_page "2") - 1)) /\
    1 <= len shown.
Proof.
  assert (Hp : 1 <= page_of (get_with_page "2")) by (vm_compute; discriminate).
  assert (Hs : status (GET_questions (store_of_size 12) (get_with_page "2")) = 200)
    by reflexivity.
  split; [exact Hp|]. split; [exact Hs|].
  exact (proj2 (proj2 (questions_pages_that_exist (store_of_size 12)
                         (get_with_page "2"))) Hp Hs).
Defined.

(** ** The [page] parameter *)

Lemma without_page_absent r : args_lookup "page" (args (without_page r)) = None.
Proof.
  unfold without_page. simpl.
  induction (args r) as [|[k v] t IH]; simpl; [reflexivity|].
  destruct (String.eqb k "page") eqn:E; simpl; [exact IH|].
  now rewrite E.
Qed.

Lemma py_int_cases s :
  py_int s =
  match lstrip s with
  | EmptyString => None
  | String x t =>
      if Ascii.eqb x "-" then option_map Z.opp (digits 0 false t)
      else if Ascii.eqb x "+" then digits 0 false t
      else digits 0 false (String x t)
  end.
Proof.
  unfold py_int. destruct (lstrip s) as [|x t]; [reflexivity|].
  destruct x as [[] [] [] [] [] [] [] []]; reflexivity.
Qed.

Lemma foreign_to_int_spec c :
  foreign_to_int c = true ->
  is_space c = false /\ digit_of c = None /\
  Ascii.eqb c "_" = false /\ Ascii.eqb c "-" = false /\ Ascii.eqb c "+" = false.
Proof.
  destruct c as [[] [] [] [] [] [] [] []]; vm_compute; intros H;
    try discriminate H; repeat split.
Qed.

Lemma all_space_occurs c s :
  all_space s = true -> occurs c s -> is_space c = true.
Proof.
  induction s as [|x t IH]; simpl; [contradiction|].
  intros H [<-|Hc]; apply andb_true_iff in H as [Hx Ht]; auto.
Qed.

Lemma digits_foreign c s :
  foreign_to_int c = true -> occurs c s ->
  forall acc after_digit, digits acc after_digit s = None.
Proof.
  intros Hf. destruct (foreign_to_int_spec c Hf) as [Hs [Hd [Hu _]]].
  induction s as [|x t IH]; [contradiction|].
  intros Hc acc after_digit. cbn [digits].
  destruct (digit_of x) as [d|] eqn:Ex.
  - apply IH. destruct Hc as [->|Hc]; [congruence | exact Hc].
  - destruct (Ascii.eqb x "_") eqn:Eu.
    + destruct after_digit; [|reflexivity].
      apply IH. destruct Hc as [->|Hc]; [congruence | exact Hc].
    + destruct (after_digit && all_space (String x t))%bool eqn:Ea; [|reflexivity].
      apply andb_true_iff in Ea as [_ Ea].
      rewrite (all_space_occurs c _ Ea Hc) in Hs. discriminate.
Qed.

Lemma lstrip_occurs c s :
  is_space c = false -> occurs c s -> occurs c (lstrip s).
Proof.
  intros Hs. induction s as [|x t IH]; simpl; [tauto|].
  intros Hc. destruct (is_space x) eqn:Ex; [|exact Hc].
  apply IH. destruct Hc as [->|Hc]; [congruence | exact Hc].
Qed.

(** A text that holds a character foreign to integer literals is refused. *)
Lemma py_int_foreign c s :
  foreign_to_int c = true -> occurs c s -> py_int s = None.
Proof.
  intros Hf Hc. destruct (foreign_to_int_spec c Hf) as [Hs [_ [_ [Hm Hp]]]].
  rewrite py_int_cases. apply (lstrip_occurs c s Hs) in Hc.
  destruct (lstrip s) as [|x t]; [reflexivity|].
  destruct (Ascii.eqb x "-") eqn:Em.
  - apply Ascii.eqb_eq in Em. subst x.
    destruct Hc as [<-|Hc]; [rewrite Ascii.eqb_refl in Hm; discriminate|].
    now rewrite (digits_foreign c t Hf Hc).
  - destruct (Ascii.eqb x "+") eqn:Ep.
    + apply Ascii.eqb_eq in Ep. subst x.
      destruct Hc as [<-|Hc]; [rewrite Ascii.eqb_refl in Hp; discriminate|].
      apply (digits_foreign c t Hf Hc).
    + apply (digits_foreign c _ Hf Hc).
Qed.

(** X5: a [page] that cannot be an integer counts as no [page] at all.  When
    the parameter holds a letter, or any other ASCII character that is no
    digit, sign, underscore or white space, [int] refuses it, and both
    listings answer the request as they answer the same request without the
    parameter, that is with page 1. *)
Theorem unreadable_page_is_page_one st r category_id s c :
  args_lookup "page" (args r) = Some s ->
  occurs c s ->
  foreign_to_int c = true ->
  py_int s = None /\
  page_of r = 1 /\
  GET_questions st r = GET_questions st (without_page r) /\
  GET_category_questions st r category_id =
    GET_category_questions st (without_page r) category_id.
Proof.
  intros Hs Hc Hf.
  pose proof (py_int_foreign c s Hf Hc) as Hi.
  assert (H1 : page_of r = 1) by now apply page_of_invalid with s.
  assert (H2 : page_of (without_page r) = 1)
    by apply page_of_absent, without_page_absent.
  split; [exact Hi|]. split; [exact H1|]. split.
  - now rewrite !GET_questions_cases, H1, H2.
  - unfold GET_category_questions, get_category_questions.
    destruct (Category_query_get st category_id); [|reflexivity].
    now rewrite !paginate_questions_slice, H1, H2.
Qed.

Lemma unreadable_page_is_page_one_witness :
  args_lookup "page" (args (get_with_page "1O")) = Some "1O" /\
  occurs "O" "1O" /\
  foreign_to_int "O" = true /\
  page_of (get_with_page "1O") = 1 /\
  GET_questions (store_of_size 12) (get_with_page "1O") =
    GET_questions (store_of_size 12) (without_page (get_with_page "1O")) /\
  GET_category_questions (store_of_size 12) (get_with_page "1O") 1 =
    GET_category_questions (store_of_size 12) (without_page (get_with_page "1O")) 1.
Proof.
  assert (Hc : occurs "O" "1O") by (simpl; tauto).
  split; [reflexivity|]. split; [exact Hc|]. split; [reflexivity|].
  exact (proj2 (unreadable_page_is_page_one (store_of_size 12)
                  (get_with_page "1O") 1 "1O" "O" eq_refl Hc eq_refl)).
Defined.

(** ** The listing and the order of the rows *)

Lemma sorted_unique_perm_eq (l1 l2 : list Question.t) :
  StronglySorted id_le l1 -> StronglySorted id_le l2 ->
  NoDup (map Question.id l1) -> Permutation l1 l2 -> l1 = l2.
Proof.
  revert l2. induction l1 as [|a t1 IH]; intros l2 S1 S2 Hnd Hp.
  - now apply Permutation_nil in Hp.
  - destruct l2 as [|b t2];
      [apply Permutation_sym, Permutation_nil in Hp; discriminate|].
    apply StronglySorted_inv in S1 as [S1 F1].
    apply StronglySorted_inv in S2 as [S2 F2].
    rewrite Forall_forall in F1, F2.
    simpl in Hnd. apply NoDup_cons_iff in Hnd as [Hna Hnd].
    assert (Hab : a = b).
    { assert (Ha : In a (b :: t2)) by (eapply Permutation_in; [exact Hp | now left]).
      assert (Hb : In b (a :: t1))
        by (eapply Permutation_in; [apply Permutation_sym; exact Hp | now left]).
      destruct Ha as [Ha|Ha]; [now symmetry|].
      destruct Hb as [Hb|Hb]; [assumption|].
      pose proof (F2 _ Ha) as Hba. pose proof (F1 _ Hb) as Hab.
      unfold id_le in *.
      exfalso. apply Hna. apply in_map_iff. exists b.
      split; [lia | assumption]. }
    subst b. f_equal.
    apply IH; try assumption.
    now apply Permutation_cons_inv in Hp.
Qed.

(** X6: when every question has an id of its own, [GET /questions] does not
    depend on the order in which the store keeps its rows: two stores with
    the same categories and the same questions in another order answer
    every request alike. *)
Theorem listing_ignores_row_order st st' r :
  unique_ids st ->
  Permutation (questions st) (questions st') ->
  categories st = categories st' ->
  Question_query_order_by_id st = Question_query_order_by_id st' /\
  GET_questions st r = GET_questions st' r.
Proof.
  intros Hu Hp Hc.
  assert (Ho : Question_query_order_by_id st = Question_query_order_by_id st').
  { unfold Question_query_order_by_id.
    apply sorted_unique_perm_eq; try apply order_by_id_sorted.
    - eapply Permutation_NoDup; [|exact Hu].
      apply Permutation_map, order_by_id_perm.
    - eapply perm_trans; [apply Permutation_sym, order_by_id_perm|].
      eapply perm_trans; [exact Hp | apply order_by_id_perm]. }
  split; [exact Ho|].
  rewrite !GET_questions_cases, Ho.
  unfold categories_dict, Category_query_all, len.
  now rewrite Hc, (Permutation_length Hp).
Qed.

Lemma listing_ignores_row_order_witness :
  unique_ids (store_of_size 3) /\
  Permutation (questions (store_of_size 3))
    (questions {| questions := rev (sample_questions 3 0 1);
                  categories := [science; art] |}) /\
  GET_questions (store_of_size 3) get_plain =
    GET_questions {| questions := rev (sample_questions 3 0 1);
                     categories := [science; art] |} get_plain.
Proof.
  assert (Hu : unique_ids (store_of_size 3)).
  { unfold unique_ids. simpl.
    repeat constructor; simpl; intros H;
      repeat (destruct H as [H|H]; [discriminate H|]); exact H. }
  assert (Hp : Permutation (questions (store_of_size 3))
                 (questions {| questions := rev (sample_questions 3 0 1);
                               categories := [science; art] |}))
    by apply Permutation_rev.
  split; [exact Hu|]. split; [exact Hp|].
  exact (proj2 (listing_ignores_row_order (store_of_size 3)
                  {| questions := rev (sample_questions 3 0 1);
                     categories := [science; art] |} get_plain Hu Hp eq_refl)).
Defined.

(** ** [GET /categories/<id>/questions], row by row *)

(** X7: the category listing only shows questions of the store that belong
    to the category of the route, at most ten of them, in the order of the
    store. *)
Theorem category_listing_is_of_the_category st r category_id v :
  GET_category_questions st r category_id = ok v ->
  exists before shown after,
    Question_filter_by_category st category_id = before ++ shown ++ after /\
    v = category_page category_id (map Question.format shown) /\
    (List.length shown <= 10)%nat /\
    (forall q, In q shown ->
               In q (questions st) /\ Question.category q = category_id).
Proof.
  intros H.
  destruct (Category_query_get st category_id) as [c|] eqn:E.
  - rewrite (get_category_questions_found st r _ _ E) in H.
    injection H as <-.
    destruct (paginate_questions_split r (Question_filter_by_category st category_id))
      as [before [shown [after [Hsplit [Hpage Hlen]]]]].
    exists before, shown, after.
    rewrite paginate_questions_slice in Hpage.
    split; [exact Hsplit|]. split; [now rewrite Hpage|]. split; [exact Hlen|].
    intros q Hq.
    assert (Hin : In q (Question_filter_by_category st category_id)).
    { rewrite Hsplit, !in_app_iff. tauto. }
    unfold Question_filter_by_category in Hin.
    apply filter_In in Hin as [Hin Hc]. split; [assumption | lia].
  - rewrite (get_category_questions_missing st r _ E) in H. discriminate H.
Qed.

Lemma category_listing_is_of_the_category_witness :
  GET_category_questions mixed_store get_plain 2 =
    ok (category_page 2 [ Question.format (q_ 3 2 "Which title did she win?");
                          Question.format (q_ 4 2 "Where is the lake?") ]) /\
  exists before shown after,
    Question_filter_by_category mixed_store 2 = before ++ shown ++ after /\
    category_page 2 [ Question.format (q_ 3 2 "Which title did she win?");
                      Question.format (q_ 4 2 "Where is the lake?") ] =
      category_page 2 (map Question.format shown) /\
    (List.length shown <= 10)%nat /\
    (forall q, In q shown ->
               In q (questions mixed_store) /\ Question.category q = 2).
Proof.
  split; [reflexivity|].
  exact (category_listing_is_of_the_category mixed_store get_plain 2 _ eq_refl).
Defined.

(** ** [DELETE /questions/<id>], once and again *)

Lemma filter_keeps_all {A} (p : A -> bool) (l : list A) :
  (forall x, In x l -> p x = true) -> filter p l = l.
Proof.
  induction l as [|h t IH]; intros H; simpl; [reflexivity|].
  rewrite (H h) by now left. f_equal. apply IH. intros x Hx. apply H. now right.
Qed.

Lemma delete_one_row (l : list Question.t) (q : Question.t) :
  NoDup (map Question.id l) -> In q l ->
  S (List.length (filter (fun q' => negb (Question.id q' =? Question.id q)) l)) =
  List.length l.
Proof.
  induction l as [|h t IH]; intros Hnd Hin; [contradiction|].
  simpl in Hnd. apply NoDup_cons_iff in Hnd as [Hh Hnd]. simpl.
  destruct (Question.id h =? Question.id q) eqn:E; simpl.
  - apply Z.eqb_eq in E. f_equal. f_equal. apply filter_keeps_all.
    intros x Hx. apply negb_true_iff, Z.eqb_neq. intros Heq.
    apply Hh. apply in_map_iff. exists x. split; [congruence | assumption].
  - f_equal. apply IH; [assumption|].
    destruct Hin as [->|Hin]; [|assumption].
    rewrite Z.eqb_refl in E. discriminate.
Qed.

(** Dropping rows keeps the ids apart. *)
Lemma ids_stay_unique (keep : Question.t -> bool) (rows : list Question.t) :
  NoDup (map Question.id rows) ->
  NoDup (map Question.id (filter keep rows)).
Proof.
  induction rows as [|row rest IH]; simpl; intros Hrows; [constructor|].
  apply NoDup_cons_iff in Hrows as [Hfresh Hrest].
  destruct (keep row); simpl; [|now apply IH].
  constructor; [|now apply IH].
  intros Hin. apply Hfresh. apply in_map_iff in Hin as [other [Hid Hin]].
  apply filter_In in Hin as [Hin _]. apply in_map_iff. now exists other.
Qed.

(** X8: on a store where every question has an id of its own, a [DELETE]
    that is answered with 200 removes exactly one question and touches no
    category, and the same [DELETE] sent again is answered with 422. *)
Theorem delete_once_then_gone commit_ok st question_id resp st' :
  unique_ids st ->
  DELETE_question commit_ok st question_id = (resp, st') ->
  status resp = 200 ->
  len (questions st') = len (questions st) - 1 /\
  categories st' = categories st /\
  unique_ids st' /\
  forall commit_ok',
    DELETE_question commit_ok' st' question_id = (unprocessable, st').
Proof.
  intros Hu Hdel H200.
  unfold DELETE_question, delete_question in Hdel.
  destruct (Question_query_get st question_id) as [q|] eqn:Hq;
    [|injection Hdel as <- <-; discriminate H200].
  destruct commit_ok; simpl in Hdel;
    [|injection Hdel as <- <-; discriminate H200].
  injection Hdel as _ <-. simpl.
  destruct (Question_query_get_Some st question_id q Hq) as [Hin Hid].
  split; [|split; [reflexivity|split]].
  - unfold len. pose proof (delete_one_row (questions st) q Hu Hin). lia.
  - unfold unique_ids. simpl. now apply ids_stay_unique.
  - intros commit_ok'.
    unfold DELETE_question, delete_question.
    replace (Question_query_get _ question_id) with (@None Question.t);
      [reflexivity|].
    symmetry. apply Question_query_get_None. simpl.
    intros q' Hq'. apply filter_In in Hq' as [_ Hne].
    apply negb_true_iff, Z.eqb_neq in Hne. congruence.
Qed.

Lemma delete_once_then_gone_witness :
  unique_ids (store_of_size 3) /\
  status (fst (DELETE_question true (store_of_size 3) 2)) = 200 /\
  len (questions (snd (DELETE_question true (store_of_size 3) 2))) =
    len (questions (store_of_size 3)) - 1 /\
  DELETE_question true (snd (DELETE_question true (store_of_size 3) 2)) 2 =
    (unprocessable, snd (DELETE_question true (store_of_size 3) 2)).
Proof.
  assert (Hu : unique_ids (store_of_size 3)).
  { unfold unique_ids. simpl.
    repeat constructor; simpl; intros H;
      repeat (destruct H as [H|H]; [discriminate H|]); exact H. }
  destruct (delete_once_then_gone true (store_of_size 3) 2 _ _ Hu eq_refl eq_refl)
    as [Hlen [_ [_ Hagain]]].
  split; [exact Hu|]. split; [reflexivity|]. split; [exact Hlen|].
  exact (Hagain true).
Defined.

(** ** [POST /search], term by term *)

Lemma append_assoc3 (a b c : string) :
  ((a ++ b) ++ c)%string = (a ++ b ++ c)%string.
Proof. induction a as [|x a IH]; simpl; [reflexivity | now rewrite IH]. Qed.

Lemma str_in_trans a b c :
  str_in a b = true -> str_in b c = true -> str_in a c = true.
Proof.
  rewrite !str_in_spec. intros [l [r ->]] [l' [r' ->]].
  exists (l' ++ l)%string, (r ++ r')%string.
  now rewrite !append_assoc3.
Qed.

Lemma str_in_empty hay : str_in "" hay = true.
Proof. destruct hay; reflexivity. Qed.

Lemma filter_narrow {A} (p p' : A -> bool) (l : list A) :
  (forall x, p' x = true -> p x = true) ->
  filter p' l = filter p' (filter p l).
Proof.
  intros H. induction l as [|h t IH]; simpl; [reflexivity|].
  destruct (p' h) eqn:E'.
  - rewrite (H h E'). simpl. now rewrite E', IH.
  - destruct (p h); simpl; [now rewrite E'|]; exact IH.
Qed.

Lemma POST_search_string lower st r kv term :
  data r = Json (VDict kv) ->
  dict_lookup "searchTerm" kv = Some (VStr term) ->
  POST_search lower st r =
  ok (search_page
        (len (filter (fun q => str_in (lower term) (lower (Question.question q)))
                     (questions st)))
        (map Question.format
             (filter (fun q => str_in (lower term) (lower (Question.question q)))
                     (questions st)))).
Proof.
  intros Hd Ht. unfold POST_search.
  rewrite (search_questions_term lower st r kv Hd). unfold entry.
  rewrite Ht, matched_filter. simpl. unfold search_page, len.
  now rewrite length_map.
Qed.

(** X9: the empty search term matches every text: [/search] then returns
    all the questions of the store, in its order, and counts them all
    ([str.lower] leaves the empty string as it is). *)
Theorem search_empty_term_returns_all (lower : string -> string) st r kv :
  lower "" = "" ->
  data r = Json (VDict kv) ->
  dict_lookup "searchTerm" kv = Some (VStr "") ->
  POST_search lower st r =
    {| status := 200;
       json := Some (VDict [ (VStr "success", VBool true);
                             (VStr "questions",
                              VList (map Question.format (questions st)));
                             (VStr "total_questions", VInt (len (questions st)));
                             (VStr "current_category", VNone) ]) |}.
Proof.
  intros Hl Hd Ht. rewrite (POST_search_string lower st r kv "" Hd Ht).
  rewrite filter_keeps_all; [reflexivity|].
  intros q _. rewrite Hl. apply str_in_empty.
Qed.

Lemma search_empty_term_returns_all_witness :
  ascii_lower "" = "" /\
  data (post_json (VDict [(VStr "searchTerm", VStr "")])) =
    Json (VDict [(VStr "searchTerm", VStr "")]) /\
  dict_lookup "searchTerm" [(VStr "searchTerm", VStr "")] = Some (VStr "") /\
  POST_search ascii_lower mixed_store (post_json (VDict [(VStr "searchTerm", VStr "")])) =
    ok (search_page 4 (map Question.format (questions mixed_store))).
Proof.
  split; [reflexivity|]. split; [reflexivity|]. split; [reflexivity|].
  exact (search_empty_term_returns_all ascii_lower mixed_store
           (post_json (VDict [(VStr "searchTerm", VStr "")])) _
           eq_refl eq_refl eq_refl).
Defined.

(** X10: a longer term narrows the search, whatever [str.lower] does to a
    text: when the lowered form of a term contains the lowered form of
    another one, its matches are those matches of the other one that still
    match, so that it never finds more. *)
Theorem search_longer_term_narrows (lower : string -> string) st r r' kv kv' term term' :
  data r = Json (VDict kv) ->
  dict_lookup "searchTerm" kv = Some (VStr term) ->
  data r' = Json (VDict kv') ->
  dict_lookup "searchTerm" kv' = Some (VStr term') ->
  contains_nocase lower term' term ->
  exists hits hits',
    POST_search lower st r =
      ok (search_page (len hits) (map Question.format hits)) /\
    POST_search lower st r' =
      ok (search_page (len hits') (map Question.format hits')) /\
    hits' = filter (fun q => str_in (lower term') (lower (Question.question q))) hits /\
    incl hits' hits /\
    len hits' <= len hits.
Proof.
  intros Hd Ht Hd' Ht' Hsub.
  apply str_in_spec in Hsub.
  exists (filter (fun q => str_in (lower term) (lower (Question.question q)))
                 (questions st)),
         (filter (fun q => str_in (lower term') (lower (Question.question q)))
                 (questions st)).
  split; [now apply POST_search_string with kv|].
  split; [now apply POST_search_string with kv'|].
  assert (Hn : filter (fun q => str_in (lower term') (lower (Question.question q)))
                 (questions st) =
               filter (fun q => str_in (lower term') (lower (Question.question q)))
                 (filter (fun q => str_in (lower term) (lower (Question.question q)))
                    (questions st))).
  { apply filter_narrow. intros q Hq. now apply str_in_trans with (lower term'). }
  split; [exact Hn|]. split.
  - rewrite Hn. intros q Hq. now apply filter_In in Hq.
  - rewrite Hn at 1. unfold len.
    pose proof (filter_length_le
                  (fun q => str_in (lower term') (lower (Question.question q)))
                  (filter (fun q => str_in (lower term) (lower (Question.question q)))
                     (questions st))).
    lia.
Qed.

Lemma search_longer_term_narrows_witness :
  contains_nocase ascii_lower "The Title" "title" /\
  exists hits hits',
    POST_search ascii_lower mixed_store (post_json (VDict [(VStr "searchTerm", VStr "title")])) =
      ok (search_page (len hits) (map Question.format hits)) /\
    POST_search ascii_lower mixed_store (post_json (VDict [(VStr "searchTerm", VStr "The Title")])) =
      ok (search_page (len hits') (map Question.format hits')) /\
    hits' = filter (fun q => str_in (ascii_lower "The Title")
                                   (ascii_lower (Question.question q))) hits /\
    incl hits' hits /\
    len hits' <= len hits.
Proof.
  assert (H : contains_nocase ascii_lower "The Title" "title")
    by (exists "the ", ""; reflexivity).
  split; [exact H|].
  exact (search_longer_term_narrows ascii_lower mixed_store
           (post_json (VDict [(VStr "searchTerm", VStr "title")]))
           (post_json (VDict [(VStr "searchTerm", VStr "The Title")]))
           _ _ "title" "The Title" eq_refl eq_refl eq_refl eq_refl H).
Defined.

(** X11: a [searchTerm] that is not a string (a number, a list, null, or no
    term at all) has no [lower]: on a store with at least one question
    [/search] ends in a server error, on a store without questions in a
    success with an empty list. *)
Theorem search_term_not_a_string (lower : string -> string) st r kv :
  data r = Json (VDict kv) ->
  (forall s, entry kv "searchTerm" <> VStr s) ->
  (questions st <> [] -> POST_search lower st r = server_error) /\
  (questions st = [] -> POST_search lower st r = ok (search_page 0 [])).
Proof.
  intros Hd Ht. unfold POST_search.
  rewrite (search_questions_term lower st r kv Hd). split.
  - intros Hne. now rewrite (matched_not_str lower _ (questions st) Ht Hne).
  - intros ->. reflexivity.
Qed.

Lemma search_term_not_a_string_witness :
  data (post_json (VDict [(VStr "searchTerm", VInt 5)])) =
    Json (VDict [(VStr "searchTerm", VInt 5)]) /\
  (forall s, entry [(VStr "searchTerm", VInt 5)] "searchTerm" <> VStr s) /\
  POST_search ascii_lower mixed_store (post_json (VDict [(VStr "searchTerm", VInt 5)])) =
    server_error.
Proof.
  assert (H : forall s, entry [(VStr "searchTerm", VInt 5)] "searchTerm" <> VStr s)
    by (intros s; discriminate).
  split; [reflexivity|]. split; [exact H|].
  apply (search_term_not_a_string ascii_lower mixed_store
           (post_json (VDict [(VStr "searchTerm", VInt 5)])) _ eq_refl H).
  discriminate.
Defined.

(** ** [POST /quizzes], at the ends of a round *)

(** X12: at the start of a round over all categories (no previous question,
    quiz category 0) [/quizzes] returns the first question of the store; at
    its end, when every id of the store is among the previous questions, it
    returns no question, whatever the quiz category. *)
Theorem quiz_round_start_and_end st r kv qc previous category_id :
  data r = Json (VDict kv) ->
  dict_lookup "previous_questions" kv = Some (VList (map VInt previous)) ->
  dict_lookup "quiz_category" kv = Some (VDict qc) ->
  dict_lookup "id" qc = Some (VInt category_id) ->
  (previous = [] -> category_id = 0 ->
   POST_quizzes st r =
     match questions st with
     | q :: _ => ok (VDict [ (VStr "success", VBool true);
                             (VStr "question", Question.format q) ])
     | [] => ok (VDict [ (VStr "success", VBool true) ])
     end) /\
  ((forall q, In q (questions st) -> In (Question.id q) previous) ->
   POST_quizzes st r = ok (VDict [ (VStr "success", VBool true) ])).
Proof.
  intros Hd Hp Hc Hi.
  rewrite (POST_quizzes_find st r kv qc previous category_id Hd Hp Hc Hi).
  split.
  - intros -> ->. now destruct (questions st).
  - intros Hall.
    replace (find (eligible previous category_id) (questions st))
      with (@None Question.t); [reflexivity|].
    symmetry. apply find_no_match. intros q Hq. unfold eligible.
    now rewrite (proj2 (mem_In _ _) (Hall q Hq)).
Qed.

Lemma quiz_round_start_and_end_witness :
  POST_quizzes mixed_store (post_json (quiz_body [] 0)) =
    ok (VDict [ (VStr "success", VBool true);
                (VStr "question",
                 Question.format (q_ 1 1 "What is the TITLE of the film?")) ]) /\
  POST_quizzes mixed_store (post_json (quiz_body [4; 3; 2; 1] 2)) =
    ok (VDict [ (VStr "success", VBool true) ]).
Proof.
  split.
  - exact (proj1 (quiz_round_start_and_end mixed_store (post_json (quiz_body [] 0))
                    _ _ [] 0 eq_refl eq_refl eq_refl eq_refl) eq_refl eq_refl).
  - apply (quiz_round_start_and_end mixed_store (post_json (quiz_body [4; 3; 2; 1] 2))
             _ _ [4; 3; 2; 1] 2 eq_refl eq_refl eq_refl eq_refl).
    intros q Hq. simpl in Hq.
    destruct Hq as [<- | [<- | [<- | [<- | []]]]]; simpl; tauto.
Defined.

(** X13: [/quizzes] reads [quiz_category.id] without looking at what
    [quiz_category] is: a JSON object as body whose [quiz_category] is
    missing, null or anything but an object ends in a server error, on every
    store; so does a body that is JSON but no object. *)
Theorem quiz_without_category st r :
  (forall kv, data r = Json (VDict kv) ->
     (forall qc, entry kv "quiz_category" <> VDict qc) ->
     get_quiz_questions st r = Raise AttributeError /\
     POST_quizzes st r = server_error) /\
  (forall v, data r = Json v -> (forall kv, v <> VDict kv) ->
     get_quiz_questions st r = Raise AttributeError /\
     POST_quizzes st r = server_error).
Proof.
  split.
  - intros kv Hd Hq.
    assert (H : get_quiz_questions st r = Raise AttributeError).
    { unfold get_quiz_questions, get_json, entry in *. rewrite Hd. simpl.
      destruct (dict_lookup "previous_questions" kv); simpl;
        (destruct (dict_lookup "quiz_category" kv) as [c|]; simpl;
         [destruct c; try reflexivity; now elim (Hq kv0) | reflexivity]). }
    split; [exact H|]. unfold POST_quizzes. now rewrite H.
  - intros v Hd Hv.
    assert (H : get_quiz_questions st r = Raise AttributeError).
    { unfold get_quiz_questions, get_json. rewrite Hd. simpl.
      destruct v; try reflexivity. now elim (Hv kv). }
    split; [exact H|]. unfold POST_quizzes. now rewrite H.
Qed.

Lemma quiz_without_category_witness :
  POST_quizzes mixed_store
    (post_json (VDict [(VStr "previous_questions", VList [])])) = server_error /\
  POST_quizzes mixed_store (post_json (VList [])) = server_error.
Proof.
  split.
  - apply (proj1 (quiz_without_category mixed_store
                    (post_json (VDict [(VStr "previous_questions", VList [])])))
             _ eq_refl).
    intros qc. discriminate.
  - apply (proj2 (quiz_without_category mixed_store (post_json (VList [])))
             _ eq_refl).
    intros kv. discriminate.
Defined.

(** ** What the routes never answer *)

Lemma matched_outcome lower v qs :
  (exists l, matched lower v qs = Ok l) \/ matched lower v qs = Raise AttributeError.
Proof.
  induction qs as [|q t IH]; simpl.
  - left. now eexists.
  - destruct v; simpl; try (now right).
    destruct IH as [[l ->]| ->]; simpl; [left; now eexists | now right].
Qed.

Lemma search_questions_outcome lower st r :
  (exists shown, search_questions lower st r = Ok (search_page (len shown) shown)) \/
  search_questions lower st r = Abort 400 \/
  exists e, search_questions lower st r = Raise e.
Proof.
  unfold search_questions, get_json.
  destruct (data r) as [| |v]; simpl.
  - right. right. now eexists.
  - right. now left.
  - destruct v; simpl; try (right; right; now eexists).
    destruct (matched_outcome lower
                match dict_lookup "searchTerm" kv with
                | Some v => v
                | None => VNone
                end (Question_query_all st)) as [[l Hl]|Hl].
    + left. exists l. destruct (dict_lookup "searchTerm" kv); simpl;
        now rewrite Hl.
    + right. right. exists AttributeError.
      destruct (dict_lookup "searchTerm" kv); simpl; now rewrite Hl.
Qed.

Lemma sql_ints_no_abort l c : sql_ints l <> Abort c.
Proof.
  induction l as [|v t IH]; simpl; [discriminate|].
  destruct v; simpl; try discriminate.
  destruct (sql_ints t); simpl; try discriminate. exact IH.
Qed.

Lemma Question_query_filter_no_abort st cat previous c :
  Question_query_filter st cat previous <> Abort c.
Proof.
  unfold Question_query_filter, sql_in_list.
  destruct previous; simpl; try discriminate.
  pose proof (sql_ints_no_abort l c) as Hl.
  destruct (sql_ints l); simpl; try discriminate; [|congruence].
  destruct cat as [v|]; simpl; [|discriminate].
  destruct v; simpl; discriminate.
Qed.

Lemma py_get_outcome v key :
  (exists x, py_get v key = Ok x) \/ py_get v key = Raise AttributeError.
Proof.
  destruct v; simpl; try (now right).
  left. destruct (dict_lookup key kv); now eexists.
Qed.

Lemma get_quiz_questions_outcome st r :
  (exists kv, get_quiz_questions st r = Ok (VDict kv) /\
              dict_lookup "success" kv = Some (VBool true)) \/
  get_quiz_questions st r = Abort 400 \/
  exists e, get_quiz_questions st r = Raise e.
Proof.
  unfold get_quiz_questions, get_json.
  destruct (data r) as [| |v]; simpl;
    [right; right; now eexists | right; now left |].
  destruct (py_get_outcome v "previous_questions") as [[p ->] | ->]; simpl;
    [|right; right; now eexists].
  destruct (py_get_outcome v "quiz_category") as [[qc ->] | ->]; simpl;
    [|right; right; now eexists].
  destruct (py_get_outcome qc "id") as [[i ->] | ->]; simpl;
    [|right; right; now eexists].
  set (o := if py_ne_zero i then _ else _).
  assert (Ho : forall c, o <> Abort c)
    by (intros c; unfold o; destruct (py_ne_zero i);
        apply Question_query_filter_no_abort).
  destruct o as [qs|c|e]; simpl.
  - left. destruct (first qs); eexists; split; reflexivity.
  - now elim (Ho c).
  - right. right. now eexists.
Qed.

Ltac closes :=
  unfold success_flag_agrees; simpl;
  first [tauto | reflexivity | assumption | discriminate].

(** X14: the statuses of the API.  [GET /categories] answers 200 only;
    the two listings 200 or 404; [DELETE] 200 or 422; [POST /questions] 200
    or 400; [/search] and [/quizzes] 200, 400 or an unhandled 500; and in
    every response the [success] field of the document is true exactly when
    the status is 200, a response without a document being no 200. *)
Theorem statuses_of_the_routes
    (ins : Store -> value -> value -> value -> value -> outcome Store)
    (lower : string -> string) commit_ok st r n :
  (status_in [200] (GET_categories st) /\
   status_in [200; 404] (GET_questions st r) /\
   status_in [200; 404] (GET_category_questions st r n) /\
   status_in [200; 422] (fst (DELETE_question commit_ok st n)) /\
   status_in [200; 400] (fst (POST_questions ins st r)) /\
   status_in [200; 400; 500] (POST_search lower st r) /\
   status_in [200; 400; 500] (POST_quizzes st r)) /\
  (success_flag_agrees (GET_categories st) /\
   success_flag_agrees (GET_questions st r) /\
   success_flag_agrees (GET_category_questions st r n) /\
   success_flag_agrees (fst (DELETE_question commit_ok st n)) /\
   success_flag_agrees (fst (POST_questions ins st r)) /\
   success_flag_agrees (POST_search lower st r) /\
   success_flag_agrees (POST_quizzes st r)).
Proof.
  unfold status_in.
  assert (Hq : GET_questions st r = not_found \/ exists v, GET_questions st r =
                 ok (questions_page (len (questions st)) v (categories_dict st))).
  { rewrite GET_questions_cases.
    destruct (slice_of_page _ _); [now left | right; now eexists]. }
  assert (Hc : GET_category_questions st r n = not_found \/
               exists v, GET_category_questions st r n =
                 ok (category_page n v)).
  { destruct (Category_query_get st n) as [c|] eqn:E.
    - right. eexists. exact (get_category_questions_found st r n c E).
    - left. exact (get_category_questions_missing st r n E). }
  assert (Hd : fst (DELETE_question commit_ok st n) = unprocessable \/
               fst (DELETE_question commit_ok st n) = ok success_only).
  { unfold DELETE_question, delete_question.
    destruct (Question_query_get st n); [|now left].
    destruct commit_ok; [now right | now left]. }
  assert (Hp : fst (POST_questions ins st r) = bad_request \/
               fst (POST_questions ins st r) = ok success_only).
  { unfold POST_questions. simpl.
    destruct (data r) as [| |v] eqn:Ed;
      try (left; rewrite create_question_no_body; [reflexivity | congruence]).
    destruct v;
      try (left; rewrite create_question_no_body; [reflexivity | congruence]).
    rewrite (create_question_body ins st r kv Ed).
    destruct (ins st _ _ _ _); [now right | now left | now left]. }
  assert (Hs : POST_search lower st r = bad_request \/ POST_search lower st r = server_error \/
               exists v, POST_search lower st r = ok (search_page (len v) v)).
  { unfold POST_search.
    destruct (search_questions_outcome lower st r) as [[v ->]|[->|[e ->]]];
      [right; right; now eexists | now left | right; now left]. }
  assert (Hz : POST_quizzes st r = bad_request \/ POST_quizzes st r = server_error \/
               exists kv, POST_quizzes st r = ok (VDict kv) /\
                          dict_lookup "success" kv = Some (VBool true)).
  { unfold POST_quizzes.
    destruct (get_quiz_questions_outcome st r) as [[kv [-> Hk]]|[->|[e ->]]];
      [right; right; now eexists | now left | right; now left]. }
  split; repeat split;
    try (unfold GET_categories, retrieve_categories; simpl; tauto);
    try (destruct Hq as [-> | [v ->]]; closes);
    try (destruct Hc as [-> | [v ->]]; closes);
    try (destruct Hd as [-> | ->]; closes);
    try (destruct Hp as [-> | ->]; closes);
    try (destruct Hs as [-> | [-> | [v ->]]]; closes);
    try (destruct Hz as [-> | [-> | [kv [-> Hk]]]]; closes).
Qed.

(** ** [POST /quizzes], from one question to the next *)

Lemma format_inj q q' : Question.format q = Question.format q' -> q = q'.
Proof.
  destruct q, q'. unfold Question.format. simpl.
  intros H. injection H as -> -> -> -> ->. reflexivity.
Qed.

Lemma filter_shrinks {A} (p p' : A -> bool) (l : list A) (q : A) :
  (forall x, p' x = true -> p x = true) ->
  In q l -> p q = true -> p' q = false ->
  (List.length (filter p' l) < List.length (filter p l))%nat.
Proof.
  intros Himp Hin Hp Hp'.
  assert (Hle : forall l0, (List.length (filter p' l0) <= List.length (filter p l0))%nat).
  { induction l0 as [|h t IH]; simpl; [lia|].
    destruct (p' h) eqn:E'; [rewrite (Himp h E'); simpl; lia|].
    destruct (p h); simpl; lia. }
  induction l as [|h t IH]; [contradiction|]. simpl.
  destruct Hin as [->|Hin].
  - rewrite Hp, Hp'. simpl. pose proof (Hle t). lia.
  - specialize (IH Hin).
    destruct (p' h) eqn:E'; [rewrite (Himp h E'); simpl; lia|].
    destruct (p h); simpl; lia.
Qed.

(** X15: a quiz round moves on and ends.  When [/quizzes] has returned a
    question and its id joins the previous questions, fewer questions remain
    to be drawn than before, and the next answer, if it holds a question,
    holds one with another id that was not asked before either. *)
Theorem quiz_round_moves_on st r r' kv kv' qc qc' previous category_id q :
  data r = Json (VDict kv) ->
  dict_lookup "previous_questions" kv = Some (VList (map VInt previous)) ->
  dict_lookup "quiz_category" kv = Some (VDict qc) ->
  dict_lookup "id" qc = Some (VInt category_id) ->
  data r' = Json (VDict kv') ->
  dict_lookup "previous_questions" kv' =
    Some (VList (map VInt (Question.id q :: previous))) ->
  dict_lookup "quiz_category" kv' = Some (VDict qc') ->
  dict_lookup "id" qc' = Some (VInt category_id) ->
  POST_quizzes st r =
    ok (VDict [ (VStr "success", VBool true);
                (VStr "question", Question.format q) ]) ->
  (List.length (filter (eligible (Question.id q :: previous) category_id) (questions st))
   < List.length (filter (eligible previous category_id) (questions st)))%nat /\
  forall q',
    POST_quizzes st r' =
      ok (VDict [ (VStr "success", VBool true);
                  (VStr "question", Question.format q') ]) ->
    Question.id q' <> Question.id q /\ ~ In (Question.id q') previous.
Proof.
  intros Hd Hp Hc Hi Hd' Hp' Hc' Hi' Hq.
  rewrite (POST_quizzes_find st r kv qc previous category_id Hd Hp Hc Hi) in Hq.
  destruct (find (eligible previous category_id) (questions st)) as [q0|] eqn:E;
    [|discriminate Hq].
  assert (Hf : Question.format q0 = Question.format q)
    by (unfold ok in Hq; congruence).
  apply format_inj in Hf. subst q0.
  apply find_some in E as [Hin Hel].
  split.
  - apply filter_shrinks with q; try assumption.
    + intros x. unfold eligible, mem. simpl.
      destruct (Question.id x =? Question.id q); simpl; [discriminate | tauto].
    + unfold eligible, mem. simpl. now rewrite Z.eqb_refl.
  - intros q' Hq'.
    rewrite (POST_quizzes_find st r' kv' qc' (Question.id q :: previous)
               category_id Hd' Hp' Hc' Hi') in Hq'.
    destruct (find _ (questions st)) as [q1|] eqn:E'; [|discriminate Hq'].
    assert (Hf : Question.format q1 = Question.format q')
      by (unfold ok in Hq'; congruence).
    apply format_inj in Hf. subst q1.
    apply find_some in E' as [_ Hel'].
    unfold eligible in Hel'. apply andb_true_iff in Hel' as [Hm _].
    apply negb_true_iff in Hm.
    split; intros H; apply not_true_iff_false in Hm; apply Hm, mem_In;
      [left; now symmetry | now right].
Qed.

Lemma quiz_round_moves_on_witness :
  POST_quizzes mixed_store (post_json (quiz_body [3] 2)) =
    ok (VDict [ (VStr "success", VBool true);
                (VStr "question", Question.format (q_ 4 2 "Where is the lake?")) ]) /\
  Nat.lt (List.length (filter (eligible [4; 3] 2) (questions mixed_store)))
         (List.length (filter (eligible [3] 2) (questions mixed_store))).
Proof.
  split; [reflexivity|].
  exact (proj1 (quiz_round_moves_on mixed_store
                  (post_json (quiz_body [3] 2)) (post_json (quiz_body [4; 3] 2))
                  _ _ _ _ [3] 2 (q_ 4 2 "Where is the lake?")
                  eq_refl eq_refl eq_refl eq_refl
                  eq_refl eq_refl eq_refl eq_refl eq_refl)).
Defined.
